(** * llava_med_api: worker dispatch and stream reassembly

    A shallow embedding of the gateway in [src/main.py] and
    [src/llava_med_api.py] (with the translation helper of
    [src/translation.py]), and the properties its specification states.

    Python [str] and [bytes] values are Rocq strings; a character stands for
    the code point (or byte) with the same number, so text is limited to
    U+0000..U+00FF.  Exceptions are values of [exn] carried by the error
    monad [result].  Library calls whose code is not in the repository
    ([json.loads], [str()], [bytes.decode]) are fields of [Runtime]; the
    services the gateway talks to (image decoding, controller, worker,
    translation) are fields of [World]. *)

From Stdlib Require Import String Ascii List ZArith Bool Lia DecimalString.
Import ListNotations.

Set Warnings "-register-all".

Local Open Scope string_scope.
Local Open Scope Z_scope.

(** ** Python string operations *)

Module PyStr.

(** [str.isspace] on one character, for code points below 256. *)
Definition isspace (c : ascii) : bool :=
  let n := Z.of_nat (nat_of_ascii c) in
  ((9 <=? n) && (n <=? 13)) || ((28 <=? n) && (n <=? 32))
  || (n =? 133) || (n =? 160).

Definition is_empty (s : string) : bool :=
  match s with EmptyString => true | String _ _ => false end.

(** [s.lstrip(chars)], [s.rstrip(chars)]: [p] tells the characters to strip. *)
Fixpoint lstrip_by (p : ascii -> bool) (s : string) : string :=
  match s with
  | EmptyString => EmptyString
  | String c r => if p c then lstrip_by p r else s
  end.

Fixpoint rstrip_by (p : ascii -> bool) (s : string) : string :=
  match s with
  | EmptyString => EmptyString
  | String c r =>
      let r' := rstrip_by p r in
      if is_empty r' && p c then EmptyString else String c r'
  end.

(** [s.strip()] *)
Definition strip (s : string) : string := rstrip_by isspace (lstrip_by isspace s).

(** [s.rstrip] of the double quote character (code 34) *)
Definition is_quote (c : ascii) : bool := Ascii.eqb c "034"%char.
Definition rstrip_quotes (s : string) : string := rstrip_by is_quote s.

(** [s.startswith(p)] and [s.endswith(suf)] *)
Definition startswith (p s : string) : bool := String.prefix p s.

Fixpoint endswith (suf s : string) : bool :=
  String.eqb s suf
  || match s with
     | EmptyString => false
     | String _ r => endswith suf r
     end.

(** [s[n:]] and [s[:n]] for [n >= 0] *)
Fixpoint drop (n : nat) (s : string) : string :=
  match n, s with
  | O, _ => s
  | S k, EmptyString => EmptyString
  | S k, String _ r => drop k r
  end.

Fixpoint take (n : nat) (s : string) : string :=
  match n, s with
  | O, _ => EmptyString
  | S k, EmptyString => EmptyString
  | S k, String c r => String c (take k r)
  end.

(** [s[:-n]] for [n > 0] *)
Definition drop_last (n : nat) (s : string) : string :=
  take (String.length s - n)%nat s.

(** [s.rfind(sub)]: the highest index at which [sub] starts, or -1.
    [rfind_from sub s i] searches [s], whose first character has index [i]. *)
Fixpoint rfind_from (sub s : string) (i : Z) : Z :=
  match s with
  | EmptyString => if is_empty sub then i else -1
  | String _ r =>
      let later := rfind_from sub r (i + 1) in
      if 0 <=? later then later
      else if startswith sub s then i else -1
  end.

Definition rfind (s sub : string) : Z := rfind_from sub s 0.

(** [sub in s] for two strings *)
Fixpoint contains (sub s : string) : bool :=
  startswith sub s
  || match s with
     | EmptyString => false
     | String _ r => contains sub r
     end.

(** [s.replace(old, new)]: every occurrence of [old], leftmost first and
    not overlapping.  [skip] counts the characters of an occurrence already
    replaced that are still to be passed over. *)
Fixpoint replace_aux (old new s : string) (skip : nat) : string :=
  match s with
  | EmptyString => EmptyString
  | String c r =>
      match skip with
      | S k => replace_aux old new r k
      | O =>
          if startswith old s
          then new ++ replace_aux old new r (String.length old - 1)%nat
          else String c (replace_aux old new r 0)
      end
  end.

(** With an empty [old], Python puts [new] before every character and at
    the end. *)
Fixpoint interleave (new s : string) : string :=
  match s with
  | EmptyString => new
  | String c r => new ++ String c (interleave new r)
  end.

Definition replace (s old new : string) : string :=
  if is_empty old then interleave new s else replace_aux old new s 0.

(** [s.split(sep)] for a separator of one character *)
Fixpoint split (sep : ascii) (s : string) : list string :=
  match s with
  | EmptyString => [EmptyString]
  | String c r =>
      if Ascii.eqb c sep then EmptyString :: split sep r
      else match split sep r with
           | p :: ps => String c p :: ps
           | [] => [String c EmptyString]
           end
  end.

(** [sep.join(l)] with the empty separator *)
Definition join (l : list string) : string :=
  fold_right String.append EmptyString l.

End PyStr.

(** ** Exceptions and the error monad *)

(** The exception classes the gateway raises, catches or lets through.
    [TimeoutException] and [TransportError] are the [httpx.RequestError]
    family; with [HTTPStatusError] they make up [httpx.HTTPError]. *)
Inductive exn : Type :=
| HTTPException (status_code : Z) (detail : string)
| TimeoutException
| TransportError (msg : string)
| HTTPStatusError (status_code : Z)
| JSONDecodeError
| KeyError (key : string)
| TypeError
| AttributeError
| UnicodeDecodeError
| OtherException (msg : string).

Definition is_RequestError (e : exn) : bool :=
  match e with
  | TimeoutException | TransportError _ => true
  | _ => false
  end.

Definition is_TimeoutException (e : exn) : bool :=
  match e with
  | TimeoutException => true
  | _ => false
  end.

Definition is_HTTPError (e : exn) : bool :=
  match e with
  | TimeoutException | TransportError _ | HTTPStatusError _ => true
  | _ => false
  end.

Definition is_JSONDecodeError (e : exn) : bool :=
  match e with
  | JSONDecodeError => true
  | _ => false
  end.

Inductive result (A : Type) : Type :=
| Ok (a : A)
| Raise (e : exn).

Arguments Ok {A} a.
Arguments Raise {A} e.

Definition bind {A B : Type} (r : result A) (k : A -> result B) : result B :=
  match r with
  | Ok a => k a
  | Raise e => Raise e
  end.

(** [try: r  except ...: h e] *)
Definition try_except {A : Type} (r : result A) (h : exn -> result A) : result A :=
  match r with
  | Ok a => Ok a
  | Raise e => h e
  end.

Declare Scope py_scope.
Delimit Scope py_scope with py.
Notation "x <- r ;; k" := (bind r (fun x => k))
  (at level 61, r at next level, right associativity) : py_scope.
Notation "' pat <- r ;; k" := (bind r (fun x => match x with pat => k end))
  (at level 61, pat pattern, r at next level, right associativity) : py_scope.
Local Open Scope py_scope.

(** ** JSON values as Python objects *)

(** A JSON number as [json.loads] reads it: an [int] literal, a decimal
    literal [mant * 10^exp10] denoting the nearest [float], or one of the
    constants [NaN], [Infinity], [-Infinity]. *)
Inductive number : Type :=
| NInt (z : Z)
| NDec (mant exp10 : Z)
| NNaN
| NInf (neg : bool).

Inductive json : Type :=
| JNull
| JBool (b : bool)
| JNum (n : number)
| JStr (s : string)
| JArr (items : list json)
| JObj (fields : list (string * json)).

(** The float a decimal literal denotes is 0.0 when the mantissa is 0 or the
    magnitude is at most 2^-1075, half the smallest subnormal (a tie goes to
    the even neighbour, 0.0). *)
Definition dec_is_zero (mant exp10 : Z) : bool :=
  if 0 <=? exp10 then mant =? 0
  else Z.abs mant * 2 ^ 1075 <=? 10 ^ (- exp10).

Definition number_is_zero (n : number) : bool :=
  match n with
  | NInt z => z =? 0
  | NDec m e => dec_is_zero m e
  | NNaN => false
  | NInf _ => false
  end.

(** [v == 0] *)
Definition py_eq_zero (v : json) : bool :=
  match v with
  | JNum n => number_is_zero n
  | JBool b => negb b
  | _ => false
  end.

(** [bool(v)] *)
Definition py_truthy (v : json) : bool :=
  match v with
  | JNull => false
  | JBool b => b
  | JNum n => negb (number_is_zero n)
  | JStr s => negb (PyStr.is_empty s)
  | JArr l => match l with [] => false | _ => true end
  | JObj f => match f with [] => false | _ => true end
  end.

(** A dict is an association list; the first binding of a key is the one
    the dict holds. *)
Fixpoint dict_get (key : string) (fields : list (string * json)) : option json :=
  match fields with
  | [] => None
  | (k, v) :: rest => if String.eqb k key then Some v else dict_get key rest
  end.

Definition is_JStr (key : string) (v : json) : bool :=
  match v with
  | JStr s => String.eqb s key
  | _ => false
  end.

(** [key in data] for a string [key]: a key of a dict, an element of a list,
    a substring of a string; the other values are not iterable. *)
Definition py_in (key : string) (data : json) : result bool :=
  match data with
  | JObj fields =>
      Ok (match dict_get key fields with Some _ => true | None => false end)
  | JArr items => Ok (existsb (is_JStr key) items)
  | JStr s => Ok (PyStr.contains key s)
  | _ => Raise TypeError
  end.

(** [data[key]] for a string [key] *)
Definition py_getitem (data : json) (key : string) : result json :=
  match data with
  | JObj fields =>
      match dict_get key fields with
      | Some v => Ok v
      | None => Raise (KeyError key)
      end
  | _ => Raise TypeError
  end.

(** [data.get(key, default)] *)
Definition py_get (data : json) (key : string) (default : json) : result json :=
  match data with
  | JObj fields =>
      Ok (match dict_get key fields with Some v => v | None => default end)
  | _ => Raise AttributeError
  end.

(** [v.strip()] *)
Definition py_strip (v : json) : result string :=
  match v with
  | JStr s => Ok (PyStr.strip s)
  | _ => Raise AttributeError
  end.

(** [v.replace(old, new)] *)
Definition py_replace (v : json) (old new : string) : result string :=
  match v with
  | JStr s => Ok (PyStr.replace s old new)
  | _ => Raise AttributeError
  end.

(** ** Library calls and external services *)

Record Runtime : Type := {
  (** [json.loads(s)]: the value, [JSONDecodeError], or another exception *)
  json_loads : string -> result json;
  (** [str(v)], as an f-string formats a value *)
  py_str : json -> string;
  (** [b.decode('utf-8')] *)
  decode_utf8 : string -> result string;
  (** [str(e)] of an exception *)
  exn_str : exn -> string
}.

(** [f"{v}"]: a string is formatted as itself. *)
Definition format (rt : Runtime) (v : json) : string :=
  match v with
  | JStr s => s
  | _ => py_str rt v
  end.

(** What the code reads of an [httpx.Response]. *)
Record Response : Type := {
  status_code : Z;
  (** the body, as [response.json()] parses it *)
  text : string;
  (** the lines [response.aiter_lines()] yields *)
  aiter_lines : list string;
  (** the chunks [response.aiter_bytes()] yields; for a response that
      [client.post] has read they are the whole body as one chunk, or none
      for an empty body, and the model allows any list *)
  aiter_bytes : list string;
  (** the exception that ends the line iteration of a streamed response
      early, if any *)
  stream_error : option exn
}.

Record World : Type := {
  (** [process_image(image)]: content hash and base64 JPEG, or the
      exception of the image library *)
  read_image : string -> result (string * string);
  (** [client.post(url, json=body)] to the controller *)
  controller_post : string -> json -> result Response;
  (** [client.post(url, json=payload, timeout=WORKER_TIMEOUT)] *)
  worker_post : string -> json -> result Response;
  (** [client.stream('POST', url, json=payload, timeout=WORKER_TIMEOUT)] *)
  worker_stream : string -> json -> result Response;
  (** [client.translate_text(request=...)]: the [translated_text] of each
      translation of the response *)
  translate_client : json -> result (list string)
}.

(** [response.raise_for_status()]: [HTTPStatusError] unless the status is
    2xx. *)
Definition raise_for_status (r : Response) : result unit :=
  if (200 <=? status_code r) && (status_code r <=? 299) then Ok tt
  else Raise (HTTPStatusError (status_code r)).

Arguments raise_for_status : simpl never.

(** [response.json()] *)
Definition response_json (rt : Runtime) (r : Response) : result json :=
  json_loads rt (text r).

(** Characters that a Rocq string literal cannot hold directly. *)
Definition LF : string := String "010"%char EmptyString.
Definition DQ : string := String "034"%char EmptyString.
Definition NUL : ascii := "000"%char.

(** ** main.py *)

Module Main.
Section Gateway.

Context (rt : Runtime) (w : World).

Definition CONTROLLER_ADDRESS : string := "http://localhost:10000".

Definition get_worker_address (model : string) : result json :=
  try_except
    (response <- controller_post w (CONTROLLER_ADDRESS ++ "/get_worker_address")
                   (JObj [("model", JStr model)]) ;;
     _ <- raise_for_status response ;;
     data <- response_json rt response ;;
     py_getitem data "address")
    (fun e =>
       if is_HTTPError e
       then Raise (HTTPException 503 "Failed to get worker address from controller")
       else Raise e).

Definition process_image (image : string) : result (string * string) :=
  read_image w image.

(** One turn of the loop over [response.aiter_lines()], in [generate] and
    in [chat]: the list [full_response] after the line was handled. *)
Definition handle_line (full_response : list string) (line : string) : list string :=
  if PyStr.is_empty line then full_response
  else
    match
      (data <- json_loads rt line ;;
       has_code <- py_in "error_code" data ;;
       if has_code : bool then
         code <- py_getitem data "error_code" ;;
         if py_eq_zero code then
           has_text <- py_in "text" data ;;
           if has_text : bool then
             t <- py_getitem data "text" ;;
             stripped <- py_strip t ;;
             Ok (full_response ++ [stripped])%list
           else Ok full_response
         else Ok full_response
       else Ok full_response)
    with
    | Ok appended => appended
    | Raise e =>
        if is_JSONDecodeError e then (full_response ++ [PyStr.strip line])%list
        else full_response
    end.

Definition read_lines (lines : list string) : list string :=
  fold_left handle_line lines [].

Definition model_name : string := "llava-med-v1.5-mistral-7b".

Definition generate_payload (prompt base64_image : string) : json :=
  JObj [("model", JStr model_name);
        ("prompt", JStr ("[INST] <image>" ++ LF ++ prompt ++ " [/INST]"));
        ("temperature", JNum (NDec 2 (-1)));
        ("top_p", JNum (NDec 7 (-1)));
        ("max_new_tokens", JNum (NInt 512));
        ("stop", JStr "</s>");
        ("images", JArr [JStr base64_image])].

Definition error_code_suffix : string :=
  DQ ++ ", " ++ DQ ++ "error_code" ++ DQ ++ ": 0}".

(** The three [except] clauses that close both endpoints, tried in order. *)
Definition endpoint_except (e : exn) : result json :=
  if is_RequestError e
  then Raise (HTTPException 503 "Service unavailable due to network error")
  else if is_TimeoutException e
  then Raise (HTTPException 504 "Worker request timed out")
  else Raise (HTTPException 500 ("An unexpected error occurred: " ++ exn_str rt e)).

(** The statements of [generate] after the loop: the empty check and the
    clean-up.  The first two values of [generated_text] are overwritten by
    the third. *)
Definition finish_generate (complete_response : string) : result json :=
  if PyStr.is_empty complete_response
  then Raise (HTTPException 500 "Worker returned empty response")
  else
    let generated_text :=
      if PyStr.endswith error_code_suffix complete_response
      then PyStr.drop_last (String.length error_code_suffix) complete_response
      else complete_response in
    let generated_text := PyStr.rstrip_quotes generated_text in
    let instruction_end := PyStr.rfind complete_response "[/INST]" in
    let generated_text :=
      if negb (instruction_end =? -1)
      then PyStr.strip (PyStr.drop (Z.to_nat (instruction_end + 7)) complete_response)
      else PyStr.strip complete_response in
    Ok (JObj [("generated_text", JStr generated_text)]).

Definition generate (image prompt : string) : result json :=
  try_except
    ('(image_hash, base64_image) <- process_image image ;;
     worker_address <- get_worker_address model_name ;;
     let payload := generate_payload prompt base64_image in
     response <- worker_post w (format rt worker_address ++ "/worker_generate_stream")
                   payload ;;
     _ <- raise_for_status response ;;
     let full_response := read_lines (aiter_lines response) in
     let complete_response := PyStr.join full_response in
     finish_generate complete_response)
    endpoint_except.

(** [for image in images: processed_images.append(...)] *)
Fixpoint process_images (images : list string) (processed_images : list json)
  : result (list json) :=
  match images with
  | [] => Ok processed_images
  | image :: rest =>
      '(_, base64_image) <- process_image image ;;
      process_images rest (processed_images ++ [JStr base64_image])%list
  end.

Definition chat_payload (messages processed_images : list json) : json :=
  JObj [("model", JStr model_name);
        ("messages", JArr messages);
        ("temperature", JNum (NDec 2 (-1)));
        ("top_p", JNum (NDec 7 (-1)));
        ("max_new_tokens", JNum (NInt 512));
        ("stop", JStr "</s>");
        ("images", JArr processed_images)].

(** [images] is the list of uploads; [None] and the empty list behave
    alike. *)
Definition chat (messages : list json) (images : list string) : result json :=
  try_except
    (worker_address <- get_worker_address model_name ;;
     processed_images <- process_images images [] ;;
     let payload := chat_payload messages processed_images in
     response <- worker_post w (format rt worker_address ++ "/worker_generate_stream")
                   payload ;;
     _ <- raise_for_status response ;;
     let full_response := read_lines (aiter_lines response) in
     let complete_response := PyStr.join full_response in
     if PyStr.is_empty complete_response
     then Raise (HTTPException 500 "Worker returned empty response")
     else Ok (JObj [("generated_text", JStr complete_response)]))
    endpoint_except.

End Gateway.
End Main.

(** ** llava_med_api.py *)

Module LlavaMedApi.
Section Gateway.

Context (rt : Runtime) (w : World).

Definition CONTROLLER_ADDRESS : string := "http://localhost:10000".

(** [translate_text]: the first translation, or [None] when the response
    holds none.  [translate_client] stands for the client's creation and
    its call. *)
Definition translate_text (text : string) : result json :=
  let project_id := "apt-market-430913-t8" in
  let location := "global" in
  let parent := "projects/" ++ project_id ++ "/locations/" ++ location in
  translations <- translate_client w
    (JObj [("parent", JStr parent);
           ("contents", JArr [JStr text]);
           ("mime_type", JStr "text/plain");
           ("source_language_code", JStr "en-US");
           ("target_language_code", JStr "id")]) ;;
  match translations with
  | translation :: _ => Ok (JStr translation)
  | [] => Ok JNull
  end.

Definition get_worker_address (model : string) : result json :=
  try_except
    (response <- controller_post w (CONTROLLER_ADDRESS ++ "/get_worker_address")
                   (JObj [("model", JStr model)]) ;;
     _ <- raise_for_status response ;;
     data <- response_json rt response ;;
     py_getitem data "address")
    (fun e =>
       if is_HTTPError e
       then Raise (HTTPException 503 "Failed to get worker address from controller")
       else Raise e).

Definition process_image (image : string) : result (string * string) :=
  read_image w image.

Definition DONE : string := "data: [DONE]" ++ LF ++ LF.

(** One turn of the loop of [stream_generator]: the frames it yields. *)
Definition sse_line (line : string) : list string :=
  if PyStr.is_empty line then []
  else
    match
      (data <- json_loads rt line ;;
       has_code <- py_in "error_code" data ;;
       if has_code : bool then
         code <- py_getitem data "error_code" ;;
         success <- (if py_eq_zero code then py_in "text" data else Ok false) ;;
         if success : bool then
           t <- py_getitem data "text" ;;
           Ok ["data: " ++ format rt t ++ LF ++ LF]
         else
           t <- py_get data "text" (JStr "Unknown error") ;;
           Ok ["data: Error: " ++ format rt t ++ LF ++ LF]
       else Ok [])
    with
    | Ok frames => frames
    | Raise e =>
        if is_JSONDecodeError e then ["data: " ++ PyStr.strip line ++ LF ++ LF]
        else []
    end.

(** The frames yielded while the lines are read, in the order of the
    yields. *)
Definition sse_lines (lines : list string) : list string :=
  fold_left (fun yielded line => (yielded ++ sse_line line)%list) lines [].

(** The generator: the frames it yields and the exception that ends it, if
    one does. *)
Definition stream_generator (worker_address : string) (payload : json)
  : list string * option exn :=
  match worker_stream w (worker_address ++ "/worker_generate_stream") payload with
  | Raise e => ([], Some e)
  | Ok response =>
      match raise_for_status response with
      | Raise e => ([], Some e)
      | Ok _ =>
          let yielded := sse_lines (aiter_lines response) in
          match stream_error response with
          | Some e => (yielded, Some e)
          | None => ((yielded ++ [DONE])%list, None)
          end
      end
  end.

Definition model_name : string := "llava-med-v1.5-mistral-7b".

Definition template (prompt : string) : string :=
  "[INST] <image>" ++ LF ++ prompt ++ " [/INST]".

Definition generate_payload (prompt base64_image : string) : json :=
  JObj [("model", JStr model_name);
        ("prompt", JStr (template prompt));
        ("temperature", JNum (NDec 2 (-1)));
        ("top_p", JNum (NDec 7 (-1)));
        ("max_new_tokens", JNum (NInt 512));
        ("stop", JStr "</s>");
        ("images", JArr [JStr base64_image])].

Definition endpoint_except (e : exn) : result json :=
  if is_RequestError e
  then Raise (HTTPException 503 "Service unavailable due to network error")
  else if is_TimeoutException e
  then Raise (HTTPException 504 "Worker request timed out")
  else Raise (HTTPException 500 ("An unexpected error occurred: " ++ exn_str rt e)).

(** [for json_str in reversed(json_objects)], given the reversed list: the
    value of [full_text] when the loop is left, by [break] or at its end. *)
Fixpoint find_text (reversed_objects : list string) : result json :=
  match reversed_objects with
  | [] => Ok (JStr EmptyString)
  | json_str :: rest =>
      if PyStr.is_empty (PyStr.strip json_str) then find_text rest
      else
        found <- try_except
                   (data <- json_loads rt json_str ;;
                    has_text <- py_in "text" data ;;
                    if has_text : bool then
                      t <- py_getitem data "text" ;; Ok (Some t)
                    else Ok None)
                   (fun e => if is_JSONDecodeError e then Ok None else Raise e) ;;
        match found with
        | Some t => Ok t
        | None => find_text rest
        end
  end.

(** The statements of [generate] after the chunks were collected. *)
Definition read_chunks (prompt : string) (chunks : list string) : result json :=
  match rev chunks with
  | [] => Raise (HTTPException 500 "Worker returned empty response")
  | last_chunk :: _ =>
      chunk_str <- decode_utf8 rt last_chunk ;;
      let json_objects := PyStr.split NUL chunk_str in
      full_text <- find_text (rev json_objects) ;;
      if negb (py_truthy full_text)
      then Raise (HTTPException 500 "No valid text found in worker response")
      else
        replaced <- py_replace full_text (template prompt) EmptyString ;;
        let generated_text := PyStr.strip replaced in
        translated_text <- translate_text generated_text ;;
        Ok (JObj [("generated_text", translated_text)])
  end.

Definition generate (image prompt : string) : result json :=
  try_except
    ('(image_hash, base64_image) <- process_image image ;;
     worker_address <- get_worker_address model_name ;;
     let payload := generate_payload prompt base64_image in
     response <- worker_post w (format rt worker_address ++ "/worker_generate_stream")
                   payload ;;
     _ <- raise_for_status response ;;
     let chunks := aiter_bytes response in
     read_chunks prompt chunks)
    endpoint_except.

End Gateway.
End LlavaMedApi.

(** ** translation.py *)

Module Translation.
Section Client.

Context (w : World).

Definition translate_text (text : string) : result json :=
  let project_id := "apt-market-430913-t8" in
  let location := "global" in
  let parent := "projects/" ++ project_id ++ "/locations/" ++ location in
  translations <- translate_client w
    (JObj [("parent", JStr parent);
           ("contents", JArr [JStr text]);
           ("mime_type", JStr "text/plain");
           ("source_language_code", JStr "en-US");
           ("target_language_code", JStr "id")]) ;;
  match translations with
  | translation :: _ => Ok (JStr translation)
  | [] => Ok JNull
  end.

End Client.
End Translation.

(** ** A reference runtime

    An executable instance of [Runtime] for the examples: a JSON reader in
    the way of [json.loads] (strict strings, the constants [NaN] and
    [Infinity], the last of two equal keys wins), restricted to text below
    U+0100.  The theorems hold for every runtime; this one shows their
    hypotheses met on concrete worker output. *)

Module Reference.

Definition code (c : ascii) : Z := Z.of_nat (nat_of_ascii c).

Definition is_json_ws (c : ascii) : bool :=
  (code c =? 32) || (code c =? 9) || (code c =? 10) || (code c =? 13).

Fixpoint skip_ws (s : string) : string :=
  match s with
  | String c r => if is_json_ws c then skip_ws r else s
  | EmptyString => EmptyString
  end.

Definition is_digit (c : ascii) : bool := (48 <=? code c) && (code c <=? 57).

(** The digits at the head of [s], read with the value [acc] before them:
    the value, how many digits, and the rest. *)
Fixpoint read_digits (s : string) (acc : Z) (count : Z) : Z * Z * string :=
  match s with
  | String c r =>
      if is_digit c then read_digits r (10 * acc + (code c - 48)) (count + 1)
      else (acc, count, s)
  | EmptyString => (acc, count, s)
  end.

Definition hex_value (c : ascii) : option Z :=
  let n := code c in
  if (48 <=? n) && (n <=? 57) then Some (n - 48)
  else if (65 <=? n) && (n <=? 70) then Some (n - 55)
  else if (97 <=? n) && (n <=? 102) then Some (n - 87)
  else None.

Definition char_of (n : Z) : ascii := ascii_of_nat (Z.to_nat n).

(** The body of a string, after its opening quote. *)
Fixpoint read_string (s : string) : result (string * string) :=
  match s with
  | EmptyString => Raise JSONDecodeError
  | String c r =>
      if code c =? 34 then Ok (EmptyString, r)
      else if code c =? 92 then
        match r with
        | String e r' =>
            if code e =? 117 then
              match r' with
              | String h1 (String h2 (String h3 (String h4 r''))) =>
                  match hex_value h1, hex_value h2, hex_value h3, hex_value h4 with
                  | Some a, Some b, Some c', Some d =>
                      let n := ((a * 16 + b) * 16 + c') * 16 + d in
                      if n <? 256 then
                        '(body, rest) <- read_string r'' ;;
                        Ok (String (char_of n) body, rest)
                      else Raise (OtherException "code point above U+00FF")
                  | _, _, _, _ => Raise JSONDecodeError
                  end
              | _ => Raise JSONDecodeError
              end
            else
              let plain (n : Z) :=
                '(body, rest) <- read_string r' ;;
                Ok (String (char_of n) body, rest) in
              if code e =? 34 then plain 34
              else if code e =? 92 then plain 92
              else if code e =? 47 then plain 47
              else if code e =? 98 then plain 8
              else if code e =? 102 then plain 12
              else if code e =? 110 then plain 10
              else if code e =? 114 then plain 13
              else if code e =? 116 then plain 9
              else Raise JSONDecodeError
        | EmptyString => Raise JSONDecodeError
        end
      else if code c <? 32 then Raise JSONDecodeError
      else
        '(body, rest) <- read_string r ;;
        Ok (String c body, rest)
  end.

(** A number whose sign was read: integer part, then an optional fraction
    and an optional exponent, each taken only when complete. *)
Definition read_number (negative : bool) (s : string) : result (json * string) :=
  let sign (z : Z) := if negative then - z else z in
  match s with
  | String c r =>
      if is_digit c then
        let '(int_part, _, after_int) :=
          if code c =? 48 then (0, 1, r) else read_digits s 0 0 in
        let '(mant, frac_len, after_frac) :=
          match after_int with
          | String dot (String d r') =>
              if (code dot =? 46) && is_digit d
              then read_digits (String d r') int_part 0
              else (int_part, -1, after_int)
          | _ => (int_part, -1, after_int)
          end in
        let '(exp, has_exp, after_exp) :=
          match after_frac with
          | String e r1 =>
              if (code e =? 101) || (code e =? 69) then
                match r1 with
                | String sg (String d r2) =>
                    if ((code sg =? 43) || (code sg =? 45)) && is_digit d then
                      let '(v, _, rest) := read_digits (String d r2) 0 0 in
                      ((if code sg =? 45 then - v else v), true, rest)
                    else if is_digit sg then
                      let '(v, _, rest) := read_digits r1 0 0 in (v, true, rest)
                    else (0, false, after_frac)
                | String d EmptyString =>
                    if is_digit d then (code d - 48, true, EmptyString)
                    else (0, false, after_frac)
                | EmptyString => (0, false, after_frac)
                end
              else (0, false, after_frac)
          | EmptyString => (0, false, after_frac)
          end in
        if (frac_len <? 0) && negb has_exp
        then Ok (JNum (NInt (sign int_part)), after_exp)
        else Ok (JNum (NDec (sign mant) (exp - Z.max frac_len 0)), after_exp)
      else Raise JSONDecodeError
  | EmptyString => Raise JSONDecodeError
  end.

(** [d[key] = v] on the association list: the value is replaced where the
    key is bound, and bound at the end otherwise. *)
Fixpoint dict_set (key : string) (v : json) (fields : list (string * json))
  : list (string * json) :=
  match fields with
  | [] => [(key, v)]
  | (k, old) :: rest =>
      if String.eqb k key then (k, v) :: rest
      else (k, old) :: dict_set key v rest
  end.

Definition expect (word : string) (v : json) (s : string) : result (json * string) :=
  if PyStr.startswith word s
  then Ok (v, PyStr.drop (String.length word) s)
  else Raise JSONDecodeError.

(** One value at the head of [s], which starts with no white space.  The
    fuel bounds the nesting and the number of members; a level of nesting
    takes two units and at least one character, so twice the length of the
    text is never used up. *)
Fixpoint read_value (fuel : nat) (s : string) : result (json * string) :=
  match fuel with
  | O => Raise (OtherException "RecursionError")
  | S f =>
      match s with
      | EmptyString => Raise JSONDecodeError
      | String c r =>
          if code c =? 34 then
            '(body, rest) <- read_string r ;; Ok (JStr body, rest)
          else if code c =? 123 then
            match skip_ws r with
            | String c' r' =>
                if code c' =? 125 then Ok (JObj [], r')
                else read_members f (skip_ws r) []
            | EmptyString => Raise JSONDecodeError
            end
          else if code c =? 91 then
            match skip_ws r with
            | String c' r' =>
                if code c' =? 93 then Ok (JArr [], r')
                else read_items f (skip_ws r) []
            | EmptyString => Raise JSONDecodeError
            end
          else if code c =? 110 then expect "null" JNull s
          else if code c =? 116 then expect "true" (JBool true) s
          else if code c =? 102 then expect "false" (JBool false) s
          else if code c =? 78 then expect "NaN" (JNum NNaN) s
          else if code c =? 73 then expect "Infinity" (JNum (NInf false)) s
          else if code c =? 45 then
            if PyStr.startswith "Infinity" r then expect "Infinity" (JNum (NInf true)) r
            else read_number true r
          else read_number false s
      end
  end
with read_members (fuel : nat) (s : string) (fields : list (string * json))
  : result (json * string) :=
  match fuel with
  | O => Raise (OtherException "RecursionError")
  | S f =>
      match s with
      | String q r =>
          if code q =? 34 then
            '(key, after_key) <- read_string r ;;
            match skip_ws after_key with
            | String colon r1 =>
                if code colon =? 58 then
                  '(v, after_value) <- read_value f (skip_ws r1) ;;
                  let fields' := dict_set key v fields in
                  match skip_ws after_value with
                  | String d r2 =>
                      if code d =? 44 then read_members f (skip_ws r2) fields'
                      else if code d =? 125 then Ok (JObj fields', r2)
                      else Raise JSONDecodeError
                  | EmptyString => Raise JSONDecodeError
                  end
                else Raise JSONDecodeError
            | EmptyString => Raise JSONDecodeError
            end
          else Raise JSONDecodeError
      | EmptyString => Raise JSONDecodeError
      end
  end
with read_items (fuel : nat) (s : string) (items : list json)
  : result (json * string) :=
  match fuel with
  | O => Raise (OtherException "RecursionError")
  | S f =>
      '(v, after_value) <- read_value f s ;;
      let items' := (items ++ [v])%list in
      match skip_ws after_value with
      | String d r =>
          if code d =? 44 then read_items f (skip_ws r) items'
          else if code d =? 93 then Ok (JArr items', r)
          else Raise JSONDecodeError
      | EmptyString => Raise JSONDecodeError
      end
  end.

Definition loads (s : string) : result json :=
  '(v, rest) <- read_value (2 * String.length s + 2)%nat (skip_ws s) ;;
  if PyStr.is_empty (skip_ws rest) then Ok v else Raise JSONDecodeError.

Definition str_of_Z (z : Z) : string := NilZero.string_of_int (Z.to_int z).

(** [str(v)] for the values whose text is fixed by their JSON form; the
    examples format no float, list or dict. *)
Definition str (v : json) : string :=
  match v with
  | JNull => "None"
  | JBool true => "True"
  | JBool false => "False"
  | JNum (NInt z) => str_of_Z z
  | JNum NNaN => "nan"
  | JNum (NInf false) => "inf"
  | JNum (NInf true) => "-inf"
  | JStr s => s
  | _ => EmptyString
  end.

(** UTF-8 for the code points of the model: one byte below 0x80, the two
    byte forms led by 0xC2 and 0xC3. *)
Fixpoint decode (b : string) : result string :=
  match b with
  | EmptyString => Ok EmptyString
  | String c r =>
      if code c <? 128 then
        body <- decode r ;; Ok (String c body)
      else if (code c =? 194) || (code c =? 195) then
        match r with
        | String c2 r' =>
            if (128 <=? code c2) && (code c2 <=? 191) then
              body <- decode r' ;;
              Ok (String (char_of (code c2 + (code c - 194) * 64)) body)
            else Raise UnicodeDecodeError
        | EmptyString => Raise UnicodeDecodeError
        end
      else if (224 <=? code c) && (code c <=? 244)
      then Raise (OtherException "code point above U+00FF")
      else Raise UnicodeDecodeError
  end.

(** [str(e)]: Starlette prints an [HTTPException] as its status and
    detail.  The exceptions of which the model keeps no text print as the
    empty string; no example depends on their text. *)
Definition message (e : exn) : string :=
  match e with
  | HTTPException status detail => str_of_Z status ++ ": " ++ detail
  | KeyError key => "'" ++ key ++ "'"
  | TransportError msg => msg
  | OtherException msg => msg
  | _ => EmptyString
  end.

Definition runtime : Runtime :=
  {| json_loads := loads; py_str := str; decode_utf8 := decode; exn_str := message |}.

(** A worker line [{"error_code": code, "text": "t"}] and its parts. *)
Definition quoted (s : string) : string := DQ ++ s ++ DQ.

Definition fragment (code : string) (t : string) : string :=
  "{" ++ quoted "error_code" ++ ": " ++ code ++ ", " ++ quoted "text" ++ ": "
      ++ quoted t ++ "}".

Definition response_of_lines (status : Z) (lines : list string) : Response :=
  {| status_code := status; text := EmptyString; aiter_lines := lines;
     aiter_bytes := []; stream_error := None |}.

Definition response_of_text (status : Z) (body : string) : Response :=
  {| status_code := status; text := body; aiter_lines := [];
     aiter_bytes := []; stream_error := None |}.

Definition response_of_chunks (status : Z) (chunks : list string) : Response :=
  {| status_code := status; text := EmptyString; aiter_lines := [];
     aiter_bytes := chunks; stream_error := None |}.

Definition registry_ok : Response :=
  response_of_text 200 ("{" ++ quoted "address" ++ ": " ++ quoted "http://w:1" ++ "}").

(** A world with a fixed image result, registry reply, worker reply and
    translation outcome. *)
Definition world (registry : result Response) (worker : result Response)
    (translation : result (list string)) : World :=
  {| read_image := fun _ => Ok ("hash", "aW1n");
     controller_post := fun _ _ => registry;
     worker_post := fun _ _ => worker;
     worker_stream := fun _ _ => worker;
     translate_client := fun _ => translation |}.

End Reference.


(** ** Vocabulary of the specification *)

Section Fragments.

Context (rt : Runtime).

(** [line] is a structured fragment with a success status and the text
    field [t]: a [TextDelta]. *)
Inductive text_delta : string -> string -> Prop :=
| TextDelta (line : string) (fields : list (string * json)) (status : json) (t : string) :
    line <> EmptyString ->
    json_loads rt line = Ok (JObj fields) ->
    dict_get "error_code" fields = Some status ->
    py_eq_zero status = true ->
    dict_get "text" fields = Some (JStr t) ->
    text_delta line t.

(** [line] fails structured parsing: a [RawUnparsed]. *)
Definition raw_unparsed (line : string) : Prop :=
  line <> EmptyString /\ json_loads rt line = Raise JSONDecodeError.

(** The text a usable fragment carries, before any trimming. *)
Inductive fragment_text : string -> string -> Prop :=
| text_of_delta (line t : string) : text_delta line t -> fragment_text line t
| text_of_raw (line : string) : raw_unparsed line -> fragment_text line line.

(** A fragment is usable when the text it carries is not blank. *)
Definition usable (line : string) : Prop :=
  exists t, fragment_text line t /\ PyStr.strip t <> EmptyString.

(** A structured fragment that carries no text for the aggregate: a
    failing status, no status field, or a success status without text. *)
Inductive no_text : string -> Prop :=
| failing_status (line : string) (fields : list (string * json)) (status : json) :
    json_loads rt line = Ok (JObj fields) ->
    dict_get "error_code" fields = Some status ->
    py_eq_zero status = false ->
    no_text line
| missing_status (line : string) (fields : list (string * json)) :
    json_loads rt line = Ok (JObj fields) ->
    dict_get "error_code" fields = None ->
    no_text line
| missing_text (line : string) (fields : list (string * json)) (status : json) :
    json_loads rt line = Ok (JObj fields) ->
    dict_get "error_code" fields = Some status ->
    py_eq_zero status = true ->
    dict_get "text" fields = None ->
    no_text line.

(** The SSE frame of a fragment: the text of a [TextDelta], the message of
    a [WorkerError], the trimmed line of a [RawUnparsed]. *)
Inductive sse_frame : string -> string -> Prop :=
| frame_of_delta (line : string) (fields : list (string * json)) (status t : json) :
    line <> EmptyString ->
    json_loads rt line = Ok (JObj fields) ->
    dict_get "error_code" fields = Some status ->
    py_eq_zero status = true ->
    dict_get "text" fields = Some t ->
    sse_frame line ("data: " ++ format rt t ++ LF ++ LF)
| frame_of_error (line : string) (fields : list (string * json)) (status : json) :
    line <> EmptyString ->
    json_loads rt line = Ok (JObj fields) ->
    dict_get "error_code" fields = Some status ->
    py_eq_zero status = false ->
    sse_frame line
      ("data: Error: "
         ++ format rt match dict_get "text" fields with
                      | Some t => t
                      | None => JStr "Unknown error"
                      end
         ++ LF ++ LF)
| frame_of_raw (line : string) :
    raw_unparsed line ->
    sse_frame line ("data: " ++ PyStr.strip line ++ LF ++ LF).

(** A piece of the last chunk that the search for a text field passes
    over: blank, not JSON, or a value that holds no "text" (an object
    without that key, a list without that element, a string without that
    substring). *)
Definition passed_over (json_str : string) : Prop :=
  PyStr.strip json_str = EmptyString
  \/ json_loads rt json_str = Raise JSONDecodeError
  \/ exists data,
       json_loads rt json_str = Ok data /\ py_in "text" data = Ok false.

End Fragments.

(** [s] splits at an occurrence of [marker] that no occurrence follows. *)
Definition last_occurrence (marker s before after : string) : Prop :=
  s = before ++ marker ++ after
  /\ forall before' after',
       s = before' ++ marker ++ after' ->
       (String.length before' <= String.length before)%nat.

Definition occurs (marker s : string) : Prop :=
  exists before after, s = before ++ marker ++ after.

Fixpoint all_chars (p : ascii -> bool) (s : string) : bool :=
  match s with
  | EmptyString => true
  | String c r => p c && all_chars p r
  end.

(** The request reached the worker and the worker answered [response] with
    a 2xx status: image, registry lookup and post went through. *)
Definition dispatched (rt : Runtime) (w : World) (image prompt : string)
    (response : Response) : Prop :=
  exists image_hash base64_image worker_address,
    read_image w image = Ok (image_hash, base64_image)
    /\ Main.get_worker_address rt w Main.model_name = Ok worker_address
    /\ worker_post w (format rt worker_address ++ "/worker_generate_stream")
         (Main.generate_payload prompt base64_image) = Ok response
    /\ raise_for_status response = Ok tt.

(** The same for [chat]: the lookup, then every image. *)
Definition chat_dispatched (rt : Runtime) (w : World) (messages : list json)
    (images : list string) (response : Response) : Prop :=
  exists worker_address processed_images,
    Main.get_worker_address rt w Main.model_name = Ok worker_address
    /\ Main.process_images w images [] = Ok processed_images
    /\ worker_post w (format rt worker_address ++ "/worker_generate_stream")
         (Main.chat_payload messages processed_images) = Ok response
    /\ raise_for_status response = Ok tt.

(** The same for [generate] of llava_med_api.py. *)
Definition llava_dispatched (rt : Runtime) (w : World) (image prompt : string)
    (response : Response) : Prop :=
  exists image_hash base64_image worker_address,
    read_image w image = Ok (image_hash, base64_image)
    /\ LlavaMedApi.get_worker_address rt w LlavaMedApi.model_name = Ok worker_address
    /\ worker_post w (format rt worker_address ++ "/worker_generate_stream")
         (LlavaMedApi.generate_payload prompt base64_image) = Ok response
    /\ raise_for_status response = Ok tt.

(** The answer to a failure met inside an endpoint: its status code. *)
Definition http_status (r : result json) : option Z :=
  match r with
  | Raise (HTTPException status _) => Some status
  | _ => None
  end.

(** The body of a successful answer. *)
Definition generated (generated_text : string) : result json :=
  Ok (JObj [("generated_text", JStr generated_text)]).

(** The clean-up as the specification words it: the text after the last
    closing marker, without a trailing error-code suffix and trailing
    quotes. *)
Definition spec_cleanup (s : string) : string :=
  let instruction_end := PyStr.rfind s "[/INST]" in
  let answer :=
    if instruction_end =? -1 then s
    else PyStr.drop (Z.to_nat (instruction_end + 7)) s in
  let answer :=
    if PyStr.endswith Main.error_code_suffix answer
    then PyStr.drop_last (String.length Main.error_code_suffix) answer
    else answer in
  PyStr.rstrip_quotes answer.

(** The aggregate as the specification words it: the text fields, one
    after the other, cleaned up. *)
Definition concatenation_claim (rt : Runtime) (w : World) : Prop :=
  forall image prompt response texts,
    dispatched rt w image prompt response ->
    Forall2 (text_delta rt) (aiter_lines response) texts ->
    Main.generate rt w image prompt = generated (spec_cleanup (PyStr.join texts)).

(** ** Example worlds *)

(** A world whose registry knows a worker and whose worker answers
    [response]. *)
Definition answering (response : Response) : World :=
  Reference.world (Ok Reference.registry_ok) (Ok response) (Ok []).

Definition two_words : Response :=
  Reference.response_of_lines 200
    [Reference.fragment "0" "Hello "; Reference.fragment "0" "world"].

Definition echoed_answer : Response :=
  Reference.response_of_lines 200
    [Reference.fragment "0" "[INST] <image>\nhi [/INST] The scan ";
     Reference.fragment "0" " shows no fracture. "].

(** A failing fragment, an object without status, and a blank line. *)
Definition nothing_usable : Response :=
  {| status_code := 200; text := EmptyString;
     aiter_lines := [Reference.fragment "1" "out of memory"; "{}"; "   "];
     aiter_bytes := [String NUL "{}"]; stream_error := None |}.

(** What the endpoints of main.py answer to an empty aggregate. *)
Definition empty_worker_response (rt : Runtime) : result json :=
  Main.endpoint_except rt (HTTPException 500 "Worker returned empty response").

(** The sentinel rule as the specification words it: once a fragment was
    decoded, the frames end with the sentinel, however the worker stream
    ends. *)
Definition sentinel_claim (rt : Runtime) (w : World) : Prop :=
  forall worker_address payload response,
    worker_stream w (worker_address ++ "/worker_generate_stream") payload
    = Ok response ->
    raise_for_status response = Ok tt ->
    LlavaMedApi.sse_lines rt (aiter_lines response) <> [] ->
    exists frames,
      fst (LlavaMedApi.stream_generator rt w worker_address payload)
      = (frames ++ [LlavaMedApi.DONE])%list.

(** A streamed response cut by a transport error after one line. *)
Definition broken_stream : Response :=
  {| status_code := 200; text := EmptyString; aiter_lines := ["hello"];
     aiter_bytes := []; stream_error := Some (TransportError "connection reset") |}.

Definition streaming (response : Response) : World :=
  Reference.world (Ok Reference.registry_ok) (Ok response) (Ok []).

(** A text, a worker error and a line that is not JSON. *)
Definition mixed_stream : Response :=
  Reference.response_of_lines 200
    [Reference.fragment "0" "Hello"; Reference.fragment "1" "busy"; " plain text "].


(** A failing fragment between two text fragments, and the same stream
    without it. *)
Definition failure_between : Response :=
  Reference.response_of_lines 200
    [Reference.fragment "0" "Hello"; Reference.fragment "1" "out of memory";
     Reference.fragment "0" "world"].

(** What [generate] of main.py answers when the loop has read [lines]. *)
Definition generate_answer (rt : Runtime) (lines : list string) : result json :=
  try_except (Main.finish_generate (PyStr.join (Main.read_lines rt lines)))
    (Main.endpoint_except rt).

(** What [chat] answers when the loop has read [lines]. *)
Definition chat_answer (rt : Runtime) (lines : list string) : result json :=
  let complete_response := PyStr.join (Main.read_lines rt lines) in
  if PyStr.is_empty complete_response then empty_worker_response rt
  else generated complete_response.

(** The failure the locator raises: status 503. *)
Definition registry_unavailable : result json :=
  Raise (HTTPException 503 "Failed to get worker address from controller").

Definition lookup (w : World) (model : string) : result Response :=
  controller_post w (Main.CONTROLLER_ADDRESS ++ "/get_worker_address")
    (JObj [("model", JStr model)]).

(** The locator as the specification words it: every transport failure,
    every status outside 2xx and every reply without an address field is
    the 503 failure, also for the client; a reply with an address yields
    it. *)
Definition registry_claim (rt : Runtime) (w : World) : Prop :=
  forall model,
    (forall e, lookup w model = Raise e -> is_RequestError e = true ->
               Main.get_worker_address rt w model = registry_unavailable)
    /\ (forall response, lookup w model = Ok response ->
                         raise_for_status response <> Ok tt ->
                         Main.get_worker_address rt w model = registry_unavailable)
    /\ (forall response fields,
          lookup w model = Ok response ->
          raise_for_status response = Ok tt ->
          response_json rt response = Ok (JObj fields) ->
          dict_get "address" fields = None ->
          Main.get_worker_address rt w model = registry_unavailable)
    /\ (forall response fields address,
          lookup w model = Ok response ->
          raise_for_status response = Ok tt ->
          response_json rt response = Ok (JObj fields) ->
          dict_get "address" fields = Some address ->
          Main.get_worker_address rt w model = Ok address)
    /\ (forall image prompt,
          Main.get_worker_address rt w model = registry_unavailable ->
          model = Main.model_name ->
          (exists processed, read_image w image = Ok processed) ->
          http_status (Main.generate rt w image prompt) = Some 503).

(** A registry that answers 200 with an object that has no address. *)
Definition no_address : World :=
  Reference.world (Ok (Reference.response_of_text 200 "{}"))
    (Ok (Reference.response_of_lines 200 [])) (Ok []).

(** A registry that answers 500, one that cannot be reached, and one that
    knows the worker. *)
Definition registry_down : World :=
  Reference.world (Ok (Reference.response_of_text 500 "Internal Server Error"))
    (Ok (Reference.response_of_lines 200 [])) (Ok []).

Definition registry_unreachable : World :=
  Reference.world (Raise (TransportError "connection refused"))
    (Ok (Reference.response_of_lines 200 [])) (Ok []).

(** A worker that answers only a payload whose prompt is [expected]. *)
Definition prompt_is (expected : string) (payload : json) : bool :=
  match py_getitem payload "prompt" with
  | Ok (JStr prompt) => String.eqb prompt expected
  | _ => false
  end.

Definition strict_worker (expected : string) (response : Response) : World :=
  {| read_image := fun _ => Ok ("hash", "aW1n");
     controller_post := fun _ _ => Ok Reference.registry_ok;
     worker_post := fun _ payload =>
       if prompt_is expected payload then Ok response
       else Raise (TransportError "unexpected prompt");
     worker_stream := fun _ _ => Ok response;
     translate_client := fun _ => Ok [] |}.

(** The worker of llava_med_api.py produced the usable text [t]: the last
    chunk decodes and the search through its pieces ends on the non-empty
    string [t]. *)
Definition produced_text (rt : Runtime) (response : Response) (t : string) : Prop :=
  exists earlier last_chunk chunk_str,
    aiter_bytes response = (earlier ++ [last_chunk])%list
    /\ decode_utf8 rt last_chunk = Ok chunk_str
    /\ LlavaMedApi.find_text rt (rev (PyStr.split NUL chunk_str)) = Ok (JStr t)
    /\ t <> EmptyString.

(** The text handed to the translator: the template taken out, trimmed. *)
Definition untranslated (prompt t : string) : string :=
  PyStr.strip (PyStr.replace t (LlavaMedApi.template prompt) EmptyString).

(** Best-effort translation as the specification words it: when the
    translator fails the request succeeds with the untranslated text. *)
Definition best_effort_claim (rt : Runtime) (w : World) : Prop :=
  forall image prompt response t e,
    llava_dispatched rt w image prompt response ->
    produced_text rt response t ->
    LlavaMedApi.translate_text w (untranslated prompt t) = Raise e ->
    LlavaMedApi.generate rt w image prompt = generated (untranslated prompt t).

(** One chunk with two objects, the second one carrying the answer. *)
Definition one_chunk : Response :=
  Reference.response_of_chunks 200
    [Reference.fragment "0" "partial" ++ String NUL
       (Reference.fragment "0" "[INST] <image>\nhi [/INST] No fracture."
          ++ String NUL EmptyString)].

(** A world whose translator is out of quota. *)
Definition translator_down : World :=
  Reference.world (Ok Reference.registry_ok) (Ok one_chunk)
    (Raise (OtherException "quota exceeded")).

(** A world whose translator answers. *)
Definition translator_up : World :=
  Reference.world (Ok Reference.registry_ok) (Ok one_chunk) (Ok ["Tidak ada fraktur."]).

(** [s] neither starts nor ends with white space. *)
Definition trimmed (s : string) : Prop :=
  (forall c rest, s = String c rest -> PyStr.isspace c = false)
  /\ (forall rest c, s = rest ++ String c EmptyString -> PyStr.isspace c = false).

(** [s] is [t] without the white space at its two ends. *)
Definition trimmed_from (t s : string) : Prop :=
  trimmed s
  /\ exists left right,
       t = left ++ s ++ right
       /\ all_chars PyStr.isspace left = true
       /\ all_chars PyStr.isspace right = true.

(** ** Vocabulary of the further properties *)

(** What an endpoint can answer: a body, or an HTTP error of status 500 or
    503. *)
Definition endpoint_outcome (r : result json) : Prop :=
  (exists body, r = Ok body)
  \/ (exists detail, r = Raise (HTTPException 500 detail))
  \/ (exists detail, r = Raise (HTTPException 503 detail)).

(** The request of [generate] came to the post to the worker, which ended
    as [reply]. *)
Definition reaches_worker (rt : Runtime) (w : World) (image prompt : string)
    (reply : result Response) : Prop :=
  exists image_hash base64_image worker_address,
    read_image w image = Ok (image_hash, base64_image)
    /\ Main.get_worker_address rt w Main.model_name = Ok worker_address
    /\ worker_post w (format rt worker_address ++ "/worker_generate_stream")
         (Main.generate_payload prompt base64_image) = reply.

(** The post to the worker raised [e], or the status check of its reply
    did. *)
Definition worker_fails (reply : result Response) (e : exn) : Prop :=
  reply = Raise e
  \/ exists response, reply = Ok response /\ raise_for_status response = Raise e.

(** The registry lookup met a transport failure or a status outside 2xx. *)
Definition lookup_fails (w : World) (model : string) : Prop :=
  (exists e, lookup w model = Raise e /\ is_RequestError e = true)
  \/ (exists response,
        lookup w model = Ok response /\ raise_for_status response <> Ok tt).

(** A worker that does not answer in time, and one that answers 502. *)
Definition worker_timeout : World :=
  Reference.world (Ok Reference.registry_ok) (Raise TimeoutException) (Ok []).

Definition worker_bad_gateway : World :=
  answering (Reference.response_of_lines 502 []).

(** [image] is normalised to the base64 text [base64_image]. *)
Definition encodes (w : World) (image base64_image : string) : Prop :=
  exists image_hash, read_image w image = Ok (image_hash, base64_image).

(** A world that encodes every image to a text of its own, and one that
    can read no image and reach no registry. *)
Definition encoding_world : World :=
  {| read_image := fun image => Ok ("hash", "b64:" ++ image);
     controller_post := fun _ _ => Ok Reference.registry_ok;
     worker_post := fun _ _ => Ok two_words;
     worker_stream := fun _ _ => Ok two_words;
     translate_client := fun _ => Ok [] |}.

Definition nothing_works : World :=
  {| read_image := fun _ => Raise (OtherException "cannot identify image file");
     controller_post := fun _ _ => Raise (TransportError "connection refused");
     worker_post := fun _ _ => Raise (TransportError "connection refused");
     worker_stream := fun _ _ => Raise (TransportError "connection refused");
     translate_client := fun _ => Raise (OtherException "unavailable") |}.

(** The shape of an SSE data frame. *)
Definition sse_framed (frame : string) : Prop :=
  exists body, frame = "data: " ++ body ++ LF ++ LF.

Definition nonempty (line : string) : bool := negb (PyStr.is_empty line).

(** A line that both modes pass over in silence: JSON that is not an
    object, an object without a status field, or a line on which the
    reader fails with another exception than the decode error. *)
Inductive ignored (rt : Runtime) : string -> Prop :=
| not_an_object (line : string) (data : json) :
    json_loads rt line = Ok data ->
    (forall fields, data <> JObj fields) ->
    ignored rt line
| no_status (line : string) (fields : list (string * json)) :
    json_loads rt line = Ok (JObj fields) ->
    dict_get "error_code" fields = None ->
    ignored rt line
| reader_failed (line : string) (e : exn) :
    json_loads rt line = Raise e ->
    is_JSONDecodeError e = false ->
    ignored rt line.

(** The request [translate_text] sends for [text]. *)
Definition translation_request (text : string) : json :=
  JObj [("parent", JStr "projects/apt-market-430913-t8/locations/global");
        ("contents", JArr [JStr text]);
        ("mime_type", JStr "text/plain");
        ("source_language_code", JStr "en-US");
        ("target_language_code", JStr "id")].

(** What [generate] of llava_med_api.py answers when the translator gave
    [translations]: the first one, or [None]. *)
Definition translated (translations : list string) : result json :=
  Ok (JObj [("generated_text",
             match translations with
             | translation :: _ => JStr translation
             | [] => JNull
             end)]).

(** A worker whose aggregate ends with a quote. *)
Definition quoted_answer : Response :=
  Reference.response_of_lines 200
    [Reference.fragment "0" ("[INST] hi [/INST] No fracture.\" ++ DQ)].

(** A last chunk whose last object has an empty text, after an object with
    a text. *)
Definition empty_last_text : Response :=
  Reference.response_of_chunks 200
    [Reference.fragment "0" "No fracture." ++ String NUL (Reference.fragment "0" "")].

(** A registry that answers 200 with a body that is not JSON. *)
Definition registry_html : World :=
  Reference.world (Ok (Reference.response_of_text 200 "<html>ok</html>"))
    (Ok (Reference.response_of_lines 200 [])) (Ok []).

(** A line whose status is the JSON value [false], and one whose status
    is the string "0". *)
Definition status_false : string :=
  "{" ++ Reference.quoted "error_code" ++ ": false, " ++ Reference.quoted "text"
      ++ ": " ++ Reference.quoted "ok" ++ "}".

Definition status_text : string :=
  Reference.fragment (Reference.quoted "0") "ok".

(** A worker that echoes the instruction and adds nothing. *)
Definition echo_only : Response :=
  Reference.response_of_lines 200 [Reference.fragment "0" "[INST] hi [/INST]  "].

(** A last chunk with an answer followed by a bare number. *)
Definition number_after_answer : Response :=
  Reference.response_of_chunks 200
    [Reference.fragment "0" "No fracture." ++ String NUL "5"].

(** ** Vocabulary of the final-chunk variant *)

(** A piece of a chunk that carries usable text: an object whose text
    field is a string that is not blank. *)
Definition usable_piece (rt : Runtime) (piece : string) : Prop :=
  exists fields t,
    json_loads rt piece = Ok (JObj fields)
    /\ dict_get "text" fields = Some (JStr t)
    /\ PyStr.strip t <> EmptyString.

(** The empty-response rule as the specification words it, for the three
    aggregating endpoints: a stream without usable text is answered with
    status 500. *)
Definition empty_success_claim (rt : Runtime) (w : World) : Prop :=
  forall image prompt messages images response,
    ((forall line, In line (aiter_lines response) -> ~ usable rt line) ->
     (dispatched rt w image prompt response ->
      http_status (Main.generate rt w image prompt) = Some 500)
     /\ (chat_dispatched rt w messages images response ->
         http_status (Main.chat rt w messages images) = Some 500))
    /\ ((forall chunk chunk_str piece,
           In chunk (aiter_bytes response) ->
           decode_utf8 rt chunk = Ok chunk_str ->
           In piece (PyStr.split NUL chunk_str) ->
           ~ usable_piece rt piece) ->
        llava_dispatched rt w image prompt response ->
        http_status (LlavaMedApi.generate rt w image prompt) = Some 500).

(** The search through the pieces of the last chunk ends without a text,
    or on a text that is empty (or another value that counts as false). *)
Definition search_finds_nothing (rt : Runtime) (pieces : list string) : Prop :=
  Forall (passed_over rt) pieces
  \/ exists before piece after fields t,
       pieces = (before ++ piece :: after)%list
       /\ PyStr.strip piece <> EmptyString
       /\ json_loads rt piece = Ok (JObj fields)
       /\ dict_get "text" fields = Some t
       /\ py_truthy t = false
       /\ Forall (passed_over rt) after.

(** A worker whose only object has a text of three spaces, and a
    translator that gives back the empty text. *)
Definition blank_text_chunk : Response :=
  Reference.response_of_chunks 200 [Reference.fragment "0" "   "].

Definition blank_text_world : World :=
  Reference.world (Ok Reference.registry_ok) (Ok blank_text_chunk) (Ok [EmptyString]).

(** A piece that is a JSON object with a text field. *)
Definition object_with_text (rt : Runtime) (piece : string) : Prop :=
  exists fields t,
    json_loads rt piece = Ok (JObj fields) /\ dict_get "text" fields = Some t.

(** The final-chunk rule as the specification words it: the answer is made
    from the text of the last piece that is an object with a text field,
    whatever the pieces after it are. *)
Definition last_object_claim (rt : Runtime) (w : World) : Prop :=
  forall image prompt response earlier last_chunk chunk_str before piece after
         fields s,
    llava_dispatched rt w image prompt response ->
    aiter_bytes response = (earlier ++ [last_chunk])%list ->
    decode_utf8 rt last_chunk = Ok chunk_str ->
    PyStr.split NUL chunk_str = (before ++ piece :: after)%list ->
    PyStr.strip piece <> EmptyString ->
    json_loads rt piece = Ok (JObj fields) ->
    dict_get "text" fields = Some (JStr s) ->
    s <> EmptyString ->
    Forall (fun later => ~ object_with_text rt later) after ->
    LlavaMedApi.generate rt w image prompt
    = try_except
        (translated_text <- LlavaMedApi.translate_text w (untranslated prompt s) ;;
         Ok (JObj [("generated_text", translated_text)]))
        (LlavaMedApi.endpoint_except rt).

(** * Properties *)

(** ** Tactics *)

(** Case analysis on a scrutinee of the goal that holds no other match. *)
Ltac case_match :=
  match goal with
  | |- context [match ?x with _ => _ end] =>
      lazymatch x with
      | context [match _ with _ => _ end] => fail
      | _ => destruct x eqn:?
      end
  end.

(** Closed goals about the reference runtime are settled by evaluation. *)
Ltac by_computation := vm_compute; try reflexivity; try discriminate; try congruence.

Ltac prove_text_delta :=
  eapply TextDelta; [by_computation | by_computation | by_computation
                     | by_computation | by_computation].

Ltac prove_dispatched :=
  do 3 eexists; repeat split; by_computation.

(** ** Strings *)

Lemma append_nil_r (s : string) : s ++ EmptyString = s.
Proof. induction s as [|c s IH]; simpl; [reflexivity | now rewrite IH]. Qed.

Lemma append_assoc (a b c : string) : (a ++ b) ++ c = a ++ b ++ c.
Proof. induction a as [|x a IH]; simpl; [reflexivity | now rewrite IH]. Qed.

Lemma length_append (a b : string) :
  String.length (a ++ b) = (String.length a + String.length b)%nat.
Proof. induction a as [|x a IH]; simpl; [reflexivity | now rewrite IH]. Qed.

Lemma append_eq_nil (a b : string) :
  a ++ b = EmptyString -> a = EmptyString /\ b = EmptyString.
Proof. destruct a; simpl; [auto | discriminate]. Qed.

Lemma is_empty_true (s : string) : PyStr.is_empty s = true <-> s = EmptyString.
Proof. destruct s; simpl; split; congruence. Qed.

Lemma is_empty_false (s : string) : PyStr.is_empty s = false <-> s <> EmptyString.
Proof. destruct s; simpl; split; congruence. Qed.

Lemma startswith_iff (p s : string) :
  PyStr.startswith p s = true <-> exists rest, s = p ++ rest.
Proof.
  unfold PyStr.startswith. revert s.
  induction p as [|c p IH]; intros s.
  - destruct s; simpl; split; eauto.
  - destruct s as [|d s]; simpl.
    + split; [discriminate | intros [rest H]; discriminate].
    + destruct (ascii_dec c d) as [->|Hne].
      * rewrite IH. split; intros [rest H]; exists rest; congruence.
      * split; [discriminate | intros [rest H]; congruence].
Qed.


Lemma join_all_empty (l : list string) :
  (forall s, In s l -> s = EmptyString) -> PyStr.join l = EmptyString.
Proof.
  induction l as [|x l IH]; intros H; [reflexivity|].
  unfold PyStr.join in *. simpl.
  rewrite (H x (or_introl eq_refl)), IH; [reflexivity|].
  intros s Hs. apply H. now right.
Qed.

Lemma drop_append (a b : string) : PyStr.drop (String.length a) (a ++ b) = b.
Proof. induction a as [|c a IH]; simpl; [now destruct b | exact IH]. Qed.

(** *** strip *)

Lemma lstrip_by_split (p : ascii -> bool) (s : string) :
  exists l, s = l ++ PyStr.lstrip_by p s /\ all_chars p l = true.
Proof.
  induction s as [|c s [l [Hs Hl]]]; simpl.
  - exists EmptyString. auto.
  - destruct (p c) eqn:Hc.
    + exists (String c l). simpl. rewrite Hc, Hl. split; [congruence | reflexivity].
    + exists EmptyString. auto.
Qed.

Lemma lstrip_by_head (p : ascii -> bool) (s : string) (c : ascii) (r : string) :
  PyStr.lstrip_by p s = String c r -> p c = false.
Proof.
  induction s as [|d s IH]; simpl; [discriminate|].
  destruct (p d) eqn:Hd; [exact IH | congruence].
Qed.

Lemma rstrip_by_split (p : ascii -> bool) (s : string) :
  exists r, s = PyStr.rstrip_by p s ++ r /\ all_chars p r = true.
Proof.
  induction s as [|c s [r [Hs Hr]]]; simpl.
  - exists EmptyString. auto.
  - destruct (PyStr.is_empty (PyStr.rstrip_by p s)) eqn:He; simpl.
    + apply is_empty_true in He. rewrite He in Hs. simpl in Hs.
      destruct (p c) eqn:Hc.
      * exists (String c r). simpl. rewrite Hc, Hr. split; [congruence | reflexivity].
      * exists r. rewrite He. simpl. split; [congruence | assumption].
    + exists r. simpl. split; [congruence | assumption].
Qed.

Lemma rstrip_by_last (p : ascii -> bool) (s m : string) (c : ascii) :
  PyStr.rstrip_by p s = m ++ String c EmptyString -> p c = false.
Proof.
  revert m. induction s as [|d s IH]; intros m; simpl.
  - destruct m; discriminate.
  - destruct (PyStr.is_empty (PyStr.rstrip_by p s)) eqn:He; simpl.
    + destruct (p d) eqn:Hd.
      * destruct m; discriminate.
      * apply is_empty_true in He. rewrite He.
        destruct m as [|x m]; simpl; intros H; inversion H; subst; [assumption|].
        destruct m; discriminate.
    + destruct m as [|x m]; simpl; intros H; inversion H; subst.
      * rewrite H2 in He. discriminate.
      * eauto.
Qed.

Lemma rstrip_by_head (p : ascii -> bool) (c : ascii) (r : string) :
  p c = false -> PyStr.rstrip_by p (String c r) = String c (PyStr.rstrip_by p r).
Proof. intros H. simpl. rewrite H. now rewrite andb_false_r. Qed.

(** [strip] takes white space, and nothing else, from both ends; what is
    left neither starts nor ends with white space. *)
Lemma strip_spec (s : string) :
  (exists l r, s = l ++ PyStr.strip s ++ r
               /\ all_chars PyStr.isspace l = true
               /\ all_chars PyStr.isspace r = true)
  /\ (forall c m, PyStr.strip s = String c m -> PyStr.isspace c = false)
  /\ (forall m c, PyStr.strip s = m ++ String c EmptyString -> PyStr.isspace c = false).
Proof.
  unfold PyStr.strip. split; [|split].
  - destruct (lstrip_by_split PyStr.isspace s) as [l [Hs Hl]].
    destruct (rstrip_by_split PyStr.isspace (PyStr.lstrip_by PyStr.isspace s))
      as [r [Hm Hr]].
    exists l, r. split; [|auto]. rewrite <- Hm. exact Hs.
  - intros c m H.
    destruct (PyStr.lstrip_by PyStr.isspace s) as [|d t] eqn:Hl; [discriminate|].
    pose proof (lstrip_by_head _ _ _ _ Hl) as Hd.
    rewrite (rstrip_by_head _ _ _ Hd) in H. congruence.
  - intros m c H. eapply rstrip_by_last; eauto.
Qed.

Lemma rstrip_by_fixed (p : ascii -> bool) (s : string) :
  (forall m c, s = m ++ String c EmptyString -> p c = false) ->
  PyStr.rstrip_by p s = s.
Proof.
  induction s as [|c s IH]; intros H; [reflexivity|].
  simpl. rewrite IH.
  - destruct s as [|d s]; simpl; [|reflexivity].
    rewrite (H EmptyString c eq_refl). reflexivity.
  - intros m d Hs. apply (H (String c m) d). simpl. congruence.
Qed.

Lemma strip_idempotent (s : string) : PyStr.strip (PyStr.strip s) = PyStr.strip s.
Proof.
  destruct (strip_spec s) as [_ [Hhead Hlast]].
  unfold PyStr.strip at 1.
  assert (Hl : PyStr.lstrip_by PyStr.isspace (PyStr.strip s) = PyStr.strip s).
  { destruct (PyStr.strip s) as [|c m] eqn:E; [reflexivity|].
    simpl. now rewrite (Hhead c m eq_refl). }
  rewrite Hl. apply rstrip_by_fixed. exact Hlast.
Qed.

(** *** rfind *)

Lemma occurs_cons_inv (marker : string) (c : ascii) (s before after : string) :
  String c s = before ++ marker ++ after ->
  (before = EmptyString /\ PyStr.startswith marker (String c s) = true)
  \/ exists before', before = String c before' /\ s = before' ++ marker ++ after.
Proof.
  intros H. destruct before as [|d before]; simpl in H.
  - left. split; [reflexivity|]. apply startswith_iff. eauto.
  - right. inversion H; subst. eauto.
Qed.

(** [rfind_from] answers -1 when [sub] occurs nowhere, and otherwise the
    index of the occurrence that none follows. *)
Lemma rfind_from_spec (sub s : string) (i : Z) :
  0 <= i ->
  (PyStr.rfind_from sub s i = -1 /\ ~ occurs sub s)
  \/ exists before after,
       last_occurrence sub s before after
       /\ PyStr.rfind_from sub s i = i + Z.of_nat (String.length before).
Proof.
  revert i. induction s as [|c s IH]; intros i Hi.
  - simpl. destruct sub as [|d sub]; simpl.
    + right. exists EmptyString, EmptyString. repeat split; simpl; try lia.
      intros b' a' H. destruct b'; [simpl; lia | discriminate].
    + left. split; [reflexivity|]. intros [b [a H]].
      destruct b; discriminate.
  - cbn [PyStr.rfind_from].
    destruct (IH (i + 1) ltac:(lia)) as [[Hr Hno] | [before [after [[Hs Hmax] Hr]]]].
    + rewrite Hr. replace (0 <=? -1) with false by reflexivity.
      destruct (PyStr.startswith sub (String c s)) eqn:Hp.
      * right. apply startswith_iff in Hp. destruct Hp as [rest Hrest].
        exists EmptyString, rest. split; [split|]; simpl; try lia; [assumption|].
        intros b' a' H.
        destruct (occurs_cons_inv _ _ _ _ _ H) as [[-> _] | [b'' [-> Hs']]];
          [simpl; lia|].
        exfalso. apply Hno. exists b'', a'. exact Hs'.
      * left. split; [reflexivity|]. intros [b [a H]].
        destruct (occurs_cons_inv _ _ _ _ _ H) as [[_ Hp'] | [b'' [-> Hs']]];
          [congruence|].
        apply Hno. exists b'', a. exact Hs'.
    + rewrite Hr.
      replace (0 <=? i + 1 + Z.of_nat (String.length before)) with true
        by (symmetry; apply Z.leb_le; lia).
      right. exists (String c before), after. split; [split|].
      * simpl. congruence.
      * intros b' a' H.
        destruct (occurs_cons_inv _ _ _ _ _ H) as [[-> _] | [b'' [-> Hs']]];
          simpl; [lia|].
        specialize (Hmax _ _ Hs'). lia.
      * simpl String.length. lia.
Qed.

Lemma last_occurrence_unique (marker s b1 a1 b2 a2 : string) :
  last_occurrence marker s b1 a1 -> last_occurrence marker s b2 a2 ->
  String.length b1 = String.length b2.
Proof.
  intros [H1 M1] [H2 M2].
  pose proof (M1 _ _ H2). pose proof (M2 _ _ H1). lia.
Qed.

Lemma rfind_last (marker s before after : string) :
  last_occurrence marker s before after ->
  PyStr.rfind s marker = Z.of_nat (String.length before).
Proof.
  intros Hlast. unfold PyStr.rfind.
  destruct (rfind_from_spec marker s 0 ltac:(lia))
    as [[_ Hno] | [b [a [Hl Hr]]]].
  - exfalso. apply Hno. destruct Hlast as [Hs _]. exists before, after. exact Hs.
  - rewrite Hr, (last_occurrence_unique _ _ _ _ _ _ Hl Hlast). lia.
Qed.

Lemma rfind_absent (marker s : string) :
  ~ occurs marker s -> PyStr.rfind s marker = -1.
Proof.
  intros Hno. unfold PyStr.rfind.
  destruct (rfind_from_spec marker s 0 ltac:(lia))
    as [[Hr _] | [b [a [[Hs _] _]]]]; [assumption|].
  exfalso. apply Hno. exists b, a. exact Hs.
Qed.

Lemma drop_after_marker (marker before after : string) :
  PyStr.drop (String.length before + String.length marker)
    (before ++ marker ++ after) = after.
Proof.
  rewrite <- length_append, <- append_assoc. apply drop_append.
Qed.

(** ** The line loop of main.py *)

Section LineLoop.

Context (rt : Runtime).

Lemma handle_line_acc (acc : list string) (line : string) :
  Main.handle_line rt acc line = (acc ++ Main.handle_line rt [] line)%list.
Proof.
  unfold Main.handle_line.
  destruct (PyStr.is_empty line); [now rewrite app_nil_r|].
  destruct (json_loads rt line) as [data|e]; simpl.
  - unfold bind.
    repeat (case_match; simpl; try now rewrite app_nil_r); reflexivity.
  - destruct (is_JSONDecodeError e); [reflexivity | now rewrite app_nil_r].
Qed.

Lemma fold_handle_line (lines : list string) (acc : list string) :
  fold_left (Main.handle_line rt) lines acc
  = (acc ++ flat_map (Main.handle_line rt []) lines)%list.
Proof.
  revert acc. induction lines as [|line lines IH]; intros acc; simpl.
  - now rewrite app_nil_r.
  - rewrite IH, (handle_line_acc acc line), <- app_assoc. reflexivity.
Qed.

Lemma read_lines_flat (lines : list string) :
  Main.read_lines rt lines = flat_map (Main.handle_line rt []) lines.
Proof. unfold Main.read_lines. now rewrite fold_handle_line. Qed.

Lemma read_lines_app (l1 l2 : list string) :
  Main.read_lines rt (l1 ++ l2)
  = (Main.read_lines rt l1 ++ Main.read_lines rt l2)%list.
Proof. rewrite !read_lines_flat. apply flat_map_app. Qed.

Lemma read_lines_cons (line : string) (lines : list string) :
  Main.read_lines rt (line :: lines)
  = (Main.handle_line rt [] line ++ Main.read_lines rt lines)%list.
Proof. rewrite !read_lines_flat. reflexivity. Qed.

Lemma handle_line_delta (line t : string) :
  text_delta rt line t -> Main.handle_line rt [] line = [PyStr.strip t].
Proof.
  intros [l fields status t' Hne Hload Hcode Hzero Htext].
  unfold Main.handle_line.
  apply is_empty_false in Hne. rewrite Hne, Hload. simpl.
  rewrite Hcode. simpl. rewrite Hzero, Htext. reflexivity.
Qed.

Lemma handle_line_raw (line : string) :
  raw_unparsed rt line -> Main.handle_line rt [] line = [PyStr.strip line].
Proof.
  intros [Hne Hload]. unfold Main.handle_line.
  apply is_empty_false in Hne. rewrite Hne, Hload. reflexivity.
Qed.

Lemma handle_line_fragment (line t : string) :
  fragment_text rt line t -> Main.handle_line rt [] line = [PyStr.strip t].
Proof.
  intros [l t' H | l H]; [now apply handle_line_delta | now apply handle_line_raw].
Qed.

Lemma handle_line_no_text (acc : list string) (line : string) :
  no_text rt line -> Main.handle_line rt acc line = acc.
Proof.
  intros H. unfold Main.handle_line.
  destruct (PyStr.is_empty line); [reflexivity|].
  destruct H as [l fields status Hload Hcode Hzero
                | l fields Hload Hcode
                | l fields status Hload Hcode Hzero Htext];
    rewrite Hload; simpl; rewrite Hcode; simpl;
    [now rewrite Hzero | reflexivity | now rewrite Hzero, Htext].
Qed.

(** Whatever the line, the loop appends nothing or the trimmed text of a
    usable kind of fragment. *)
Lemma handle_line_cases (line : string) :
  Main.handle_line rt [] line = []
  \/ exists t, fragment_text rt line t
               /\ Main.handle_line rt [] line = [PyStr.strip t].
Proof.
  destruct (PyStr.is_empty line) eqn:Hne.
  { left. unfold Main.handle_line. now rewrite Hne. }
  apply is_empty_false in Hne.
  destruct (json_loads rt line) as [data|e] eqn:Hload.
  - destruct data as [| b | n | s | items | fields];
      try (left; unfold Main.handle_line;
           rewrite (proj2 (is_empty_false line) Hne), Hload; simpl;
           repeat (case_match; simpl); reflexivity).
    destruct (dict_get "error_code" fields) as [status|] eqn:Hcode.
    2:{ left. apply handle_line_no_text. eapply missing_status; eauto. }
    destruct (py_eq_zero status) eqn:Hzero.
    2:{ left. apply handle_line_no_text. eapply failing_status; eauto. }
    destruct (dict_get "text" fields) as [t|] eqn:Htext.
    2:{ left. apply handle_line_no_text. eapply missing_text; eauto. }
    destruct t as [| b | n | s | items | fields'];
      try (left; unfold Main.handle_line;
           rewrite (proj2 (is_empty_false line) Hne), Hload; simpl;
           rewrite Hcode; simpl; rewrite Hzero, Htext; reflexivity).
    right. exists s.
    assert (Hd : text_delta rt line s) by (econstructor; eauto).
    split; [now constructor | now apply handle_line_delta].
  - destruct (is_JSONDecodeError e) eqn:He.
    + destruct e; try discriminate.
      right. exists line.
      assert (Hr : raw_unparsed rt line) by (split; assumption).
      split; [now constructor | now apply handle_line_raw].
    + left. unfold Main.handle_line.
      rewrite (proj2 (is_empty_false line) Hne), Hload. simpl.
      now rewrite He.
Qed.

Lemma read_lines_fragments (lines texts : list string) :
  Forall2 (fragment_text rt) lines texts ->
  Main.read_lines rt lines = map PyStr.strip texts.
Proof.
  induction 1 as [|line t lines texts Hf _ IH]; [reflexivity|].
  rewrite read_lines_cons, (handle_line_fragment _ _ Hf), IH. reflexivity.
Qed.

Lemma read_lines_unusable (lines : list string) :
  (forall line, In line lines -> ~ usable rt line) ->
  PyStr.join (Main.read_lines rt lines) = EmptyString.
Proof.
  intros Hnone. apply join_all_empty. intros s Hs.
  rewrite read_lines_flat in Hs. apply in_flat_map in Hs.
  destruct Hs as [line [Hin Hs]].
  destruct (handle_line_cases line) as [Hnil | [t [Hf Hone]]].
  - rewrite Hnil in Hs. destruct Hs.
  - rewrite Hone in Hs. destruct Hs as [<- | []].
    destruct (string_dec (PyStr.strip t) EmptyString) as [|Hne]; [assumption|].
    exfalso. apply (Hnone line Hin). exists t. auto.
Qed.

End LineLoop.

(** ** The endpoints of main.py after dispatch *)

Section MainEndpoints.

Context (rt : Runtime) (w : World).

Lemma generate_dispatched (image prompt : string) (response : Response) :
  dispatched rt w image prompt response ->
  Main.generate rt w image prompt
  = try_except
      (Main.finish_generate
         (PyStr.join (Main.read_lines rt (aiter_lines response))))
      (Main.endpoint_except rt).
Proof.
  intros [image_hash [base64_image [worker_address [Himg [Haddr [Hpost Hstatus]]]]]].
  unfold Main.generate, Main.process_image.
  rewrite Himg. simpl. rewrite Haddr. simpl. rewrite Hpost. simpl.
  rewrite Hstatus. reflexivity.
Qed.

Lemma chat_dispatched_eq (messages : list json) (images : list string)
    (response : Response) :
  chat_dispatched rt w messages images response ->
  Main.chat rt w messages images
  = let complete_response :=
      PyStr.join (Main.read_lines rt (aiter_lines response)) in
    if PyStr.is_empty complete_response
    then Main.endpoint_except rt (HTTPException 500 "Worker returned empty response")
    else generated complete_response.
Proof.
  intros [worker_address [processed_images [Haddr [Himgs [Hpost Hstatus]]]]].
  unfold Main.chat.
  rewrite Haddr. simpl. rewrite Himgs. simpl. rewrite Hpost. simpl.
  rewrite Hstatus. simpl.
  destruct (PyStr.is_empty _); reflexivity.
Qed.

(** The value [generate] returns for a non-empty aggregate: neither the
    suffix nor the quotes taken off before reach it. *)
Lemma finish_generate_nonempty (complete_response : string) :
  complete_response <> EmptyString ->
  Main.finish_generate complete_response
  = generated
      (if PyStr.rfind complete_response "[/INST]" =? -1
       then PyStr.strip complete_response
       else PyStr.strip
              (PyStr.drop (Z.to_nat (PyStr.rfind complete_response "[/INST]" + 7))
                 complete_response)).
Proof.
  intros Hne. unfold Main.finish_generate, generated.
  apply is_empty_false in Hne. rewrite Hne.
  destruct (PyStr.rfind complete_response "[/INST]" =? -1); reflexivity.
Qed.

(** A quote that ends the aggregate is still there in the answer. *)
Example trailing_quote_is_kept :
  Main.finish_generate ("No fracture." ++ DQ) = generated ("No fracture." ++ DQ).
Proof. reflexivity. Qed.

Lemma finish_generate_empty :
  Main.finish_generate EmptyString
  = Raise (HTTPException 500 "Worker returned empty response").
Proof. reflexivity. Qed.

Lemma finish_generate_after_marker (s before after : string) :
  s <> EmptyString ->
  last_occurrence "[/INST]" s before after ->
  Main.finish_generate s = generated (PyStr.strip after).
Proof.
  intros Hne Hlast. rewrite (finish_generate_nonempty s Hne).
  rewrite (rfind_last _ _ _ _ Hlast).
  replace (Z.of_nat (String.length before) =? -1) with false
    by (symmetry; apply Z.eqb_neq; lia).
  destruct Hlast as [Hs _].
  replace (Z.to_nat (Z.of_nat (String.length before) + 7))
    with (String.length before + String.length "[/INST]")%nat
    by (simpl String.length; lia).
  rewrite Hs at 1. now rewrite drop_after_marker.
Qed.

Lemma finish_generate_no_marker (s : string) :
  s <> EmptyString ->
  ~ occurs "[/INST]" s ->
  Main.finish_generate s = generated (PyStr.strip s).
Proof.
  intros Hne Hno. rewrite (finish_generate_nonempty s Hne).
  now rewrite (rfind_absent _ _ Hno).
Qed.

End MainEndpoints.

Lemma last_occurrence_of_rfind (marker s before after : string) :
  s = before ++ marker ++ after ->
  PyStr.rfind s marker = Z.of_nat (String.length before) ->
  last_occurrence marker s before after.
Proof.
  intros Hs Hr. split; [assumption|]. intros b' a' H'.
  unfold PyStr.rfind in Hr.
  destruct (rfind_from_spec marker s 0 ltac:(lia))
    as [[Hm _] | [b [a [[_ Hmax] Hb]]]]; [lia|].
  specialize (Hmax _ _ H'). lia.
Qed.

Lemma not_occurs_of_rfind (marker s : string) :
  PyStr.rfind s marker = -1 -> ~ occurs marker s.
Proof.
  intros Hr. unfold PyStr.rfind in Hr.
  destruct (rfind_from_spec marker s 0 ltac:(lia))
    as [[_ Hno] | [b [a [_ Hb]]]]; [assumption | lia].
Qed.

(** ** Aggregation in [generate] of main.py *)

(** C1, as stated, fails: the fragments "Hello " and "world" are returned
    as "Helloworld", not as their concatenation "Hello world". *)
Lemma concatenation_claim_fails :
  ~ concatenation_claim Reference.runtime (answering two_words).
Proof.
  intros Hclaim.
  specialize (Hclaim "img" "hi" two_words ["Hello "; "world"]).
  assert (Hd : dispatched Reference.runtime (answering two_words) "img" "hi" two_words)
    by prove_dispatched.
  assert (Hf : Forall2 (text_delta Reference.runtime) (aiter_lines two_words)
                 ["Hello "; "world"]).
  { repeat constructor; prove_text_delta. }
  specialize (Hclaim Hd Hf). vm_compute in Hclaim. discriminate.
Qed.

(** C1 (amended).  When the worker stream holds only structured fragments
    with a success status and a text field, [generate] joins the texts,
    each one trimmed of white space, in arrival order.  If that aggregate is
    not empty, and ends with neither a quote nor the error-code suffix (so
    that nothing is there to trim), the answer is the trimmed text after
    the last "[/INST]" of the aggregate, or the trimmed aggregate when the
    marker does not occur. *)
Theorem generate_joins_trimmed_texts
    (rt : Runtime) (w : World) (image prompt : string) (response : Response)
    (texts : list string) :
  dispatched rt w image prompt response ->
  Forall2 (text_delta rt) (aiter_lines response) texts ->
  let aggregate := PyStr.join (map PyStr.strip texts) in
  aggregate <> EmptyString ->
  PyStr.endswith Main.error_code_suffix aggregate = false ->
  PyStr.rstrip_quotes aggregate = aggregate ->
  (forall before after,
      last_occurrence "[/INST]" aggregate before after ->
      Main.generate rt w image prompt = generated (PyStr.strip after))
  /\ (~ occurs "[/INST]" aggregate ->
      Main.generate rt w image prompt = generated (PyStr.strip aggregate)).
Proof.
  intros Hd Hlines aggregate Hne _ _.
  assert (Hgen : Main.generate rt w image prompt
                 = try_except (Main.finish_generate aggregate) (Main.endpoint_except rt)).
  { rewrite (generate_dispatched rt w _ _ _ Hd).
    rewrite (read_lines_fragments rt (aiter_lines response) texts); [reflexivity|].
    clear -Hlines. induction Hlines; constructor; [now constructor | assumption]. }
  split.
  - intros before after Hlast.
    now rewrite Hgen, (finish_generate_after_marker _ _ _ Hne Hlast).
  - intros Hno.
    now rewrite Hgen, (finish_generate_no_marker _ Hne Hno).
Qed.

Lemma generate_joins_trimmed_texts_witness :
  Main.generate Reference.runtime (answering echoed_answer) "img" "hi"
  = generated "The scanshows no fracture.".
Proof.
  refine (proj1 (generate_joins_trimmed_texts Reference.runtime
                   (answering echoed_answer) "img" "hi" echoed_answer
                   [String.append ("[INST] <image>" ++ LF ++ "hi [/INST] The scan ") EmptyString;
                    " shows no fracture. "] _ _ _ _ _)
                ("[INST] <image>" ++ LF ++ "hi ") " The scanshows no fracture." _).
  - prove_dispatched.
  - repeat constructor; prove_text_delta.
  - by_computation.
  - by_computation.
  - by_computation.
  - apply last_occurrence_of_rfind; by_computation.
Defined.

(** ** Streams without usable text *)

Section EmptyResponse.

Context (rt : Runtime) (w : World).

Lemma llava_generate_dispatched (image prompt : string) (response : Response) :
  llava_dispatched rt w image prompt response ->
  LlavaMedApi.generate rt w image prompt
  = try_except (LlavaMedApi.read_chunks rt w prompt (aiter_bytes response))
      (LlavaMedApi.endpoint_except rt).
Proof.
  intros [image_hash [base64_image [worker_address [Himg [Haddr [Hpost Hstatus]]]]]].
  unfold LlavaMedApi.generate, LlavaMedApi.process_image.
  rewrite Himg. simpl. rewrite Haddr. simpl. rewrite Hpost. simpl.
  rewrite Hstatus. reflexivity.
Qed.

Lemma find_text_step_passed_over (json_str : string) (rest : list string) :
  passed_over rt json_str ->
  LlavaMedApi.find_text rt (json_str :: rest) = LlavaMedApi.find_text rt rest.
Proof.
  intros H. cbn [LlavaMedApi.find_text].
  destruct (PyStr.is_empty (PyStr.strip json_str)) eqn:He; [reflexivity|].
  destruct H as [Hblank | [Hbad | [data [Hload Htext]]]].
  - rewrite Hblank in He. discriminate.
  - rewrite Hbad. reflexivity.
  - rewrite Hload. cbn [bind try_except]. rewrite Htext. reflexivity.
Qed.

Lemma find_text_passed_over (pieces rest : list string) :
  Forall (passed_over rt) pieces ->
  LlavaMedApi.find_text rt (pieces ++ rest) = LlavaMedApi.find_text rt rest.
Proof.
  induction 1 as [|p pieces Hp _ IH]; [reflexivity|].
  simpl app. now rewrite (find_text_step_passed_over _ _ Hp).
Qed.

Lemma not_usable_of_handle_line (line : string) :
  Main.handle_line rt [] line = [] \/ Main.handle_line rt [] line = [EmptyString] ->
  ~ usable rt line.
Proof.
  intros H [t [Hf Hne]]. rewrite (handle_line_fragment rt _ _ Hf) in H.
  destruct H as [H | H]; congruence.
Qed.

End EmptyResponse.

(** ** The SSE relay *)

Section Relay.

Context (rt : Runtime).

Lemma fold_sse_line (lines : list string) (yielded : list string) :
  fold_left (fun yielded line => (yielded ++ LlavaMedApi.sse_line rt line)%list)
    lines yielded
  = (yielded ++ flat_map (LlavaMedApi.sse_line rt) lines)%list.
Proof.
  revert yielded. induction lines as [|line lines IH]; intros yielded; simpl.
  - now rewrite app_nil_r.
  - now rewrite IH, <- app_assoc.
Qed.

Lemma sse_lines_flat (lines : list string) :
  LlavaMedApi.sse_lines rt lines = flat_map (LlavaMedApi.sse_line rt) lines.
Proof. unfold LlavaMedApi.sse_lines. now rewrite fold_sse_line. Qed.

Lemma sse_lines_app (l1 l2 : list string) :
  LlavaMedApi.sse_lines rt (l1 ++ l2)
  = (LlavaMedApi.sse_lines rt l1 ++ LlavaMedApi.sse_lines rt l2)%list.
Proof. rewrite !sse_lines_flat. apply flat_map_app. Qed.

Lemma sse_lines_cons (line : string) (lines : list string) :
  LlavaMedApi.sse_lines rt (line :: lines)
  = (LlavaMedApi.sse_line rt line ++ LlavaMedApi.sse_lines rt lines)%list.
Proof. rewrite !sse_lines_flat. reflexivity. Qed.

Lemma sse_line_frame (line frame : string) :
  sse_frame rt line frame -> LlavaMedApi.sse_line rt line = [frame].
Proof.
  intros H. unfold LlavaMedApi.sse_line.
  destruct H as [l fields status t Hne Hload Hcode Hzero Htext
                | l fields status Hne Hload Hcode Hzero
                | l [Hne Hload]];
    apply is_empty_false in Hne; rewrite Hne, Hload; simpl.
  - rewrite Hcode. simpl. rewrite Hzero. simpl. rewrite Htext. reflexivity.
  - rewrite Hcode. simpl. rewrite Hzero. reflexivity.
  - reflexivity.
Qed.

Lemma sse_lines_around (before after : list string) (line frame : string) :
  sse_frame rt line frame ->
  LlavaMedApi.sse_lines rt (before ++ line :: after)
  = (LlavaMedApi.sse_lines rt before ++ frame :: LlavaMedApi.sse_lines rt after)%list.
Proof.
  intros H. now rewrite sse_lines_app, sse_lines_cons, (sse_line_frame _ _ H).
Qed.

End Relay.

(** C3, as stated, fails: when the worker stream breaks after the line
    "hello", its frame is the last one and no sentinel follows. *)
Lemma sentinel_claim_fails :
  ~ sentinel_claim Reference.runtime (streaming broken_stream).
Proof.
  intros Hclaim.
  destruct (Hclaim "http://w:1" JNull broken_stream eq_refl eq_refl)
    as [frames Hframes]; [by_computation|].
  vm_compute in Hframes.
  destruct frames as [|f [|g frames]]; simpl in Hframes;
    [discriminate | discriminate |].
  destruct frames; discriminate.
Qed.

(** C3 (amended).  The generator yields the frames of the fragments in the
    order of the lines, none left out, moved or merged: the frame of a
    line stands between the frames of the lines before it and those of the
    lines after it.  When the worker stream ends normally, exactly one
    sentinel frame follows them and ends the stream; when it ends with an
    exception, the frames read so far are all that is yielded and the
    exception ends the generator. *)
Theorem sse_frames_follow_the_lines
    (rt : Runtime) (w : World) (worker_address : string) (payload : json)
    (response : Response) :
  worker_stream w (worker_address ++ "/worker_generate_stream") payload
  = Ok response ->
  raise_for_status response = Ok tt ->
  let lines := aiter_lines response in
  let out := LlavaMedApi.stream_generator rt w worker_address payload in
  (forall before line after frame,
      lines = (before ++ line :: after)%list ->
      sse_frame rt line frame ->
      LlavaMedApi.sse_lines rt lines
      = (LlavaMedApi.sse_lines rt before
           ++ frame :: LlavaMedApi.sse_lines rt after)%list)
  /\ (stream_error response = None ->
      out = ((LlavaMedApi.sse_lines rt lines ++ [LlavaMedApi.DONE])%list, None))
  /\ (forall e, stream_error response = Some e ->
      out = (LlavaMedApi.sse_lines rt lines, Some e)).
Proof.
  intros Hstream Hstatus lines out. subst out lines.
  unfold LlavaMedApi.stream_generator. rewrite Hstream, Hstatus.
  split; [|split].
  - intros before line after frame -> Hframe. now apply sse_lines_around.
  - intros ->. reflexivity.
  - intros e ->. reflexivity.
Qed.

Lemma sse_frames_follow_the_lines_witness :
  LlavaMedApi.stream_generator Reference.runtime (streaming mixed_stream)
    "http://w:1" JNull
  = (["data: Hello" ++ LF ++ LF; "data: Error: busy" ++ LF ++ LF;
      "data: plain text" ++ LF ++ LF; "data: [DONE]" ++ LF ++ LF], None).
Proof.
  destruct (sse_frames_follow_the_lines Reference.runtime (streaming mixed_stream)
              "http://w:1" JNull mixed_stream eq_refl eq_refl)
    as [Horder [Hdone _]].
  rewrite (Hdone eq_refl).
  rewrite (Horder [Reference.fragment "0" "Hello"] (Reference.fragment "1" "busy")
             [" plain text "] ("data: Error: busy" ++ LF ++ LF) eq_refl).
  - reflexivity.
  - apply (frame_of_error Reference.runtime (Reference.fragment "1" "busy")
             [("error_code", JNum (NInt 1)); ("text", JStr "busy")] (JNum (NInt 1)));
      by_computation.
Defined.

(** ** Lines that are not JSON, fragments without text *)

Section AnswersAfterDispatch.

Context (rt : Runtime) (w : World).

Lemma generate_is_generate_answer (image prompt : string) (response : Response) :
  dispatched rt w image prompt response ->
  Main.generate rt w image prompt = generate_answer rt (aiter_lines response).
Proof. apply generate_dispatched. Qed.

Lemma chat_is_chat_answer (messages : list json) (images : list string)
    (response : Response) :
  chat_dispatched rt w messages images response ->
  Main.chat rt w messages images = chat_answer rt (aiter_lines response).
Proof. apply chat_dispatched_eq. Qed.

End AnswersAfterDispatch.



(** C5.  A structured fragment with a failing status, without a status
    field, or with a success status and no text field adds nothing to the
    buffer, wherever it stands in the stream, and the lines after it are
    read as if it were not there: the buffer, and with it the answer of
    [generate] and of [chat], is that of the stream without the fragment. *)
Theorem fragment_without_text_is_skipped
    (rt : Runtime) (before after : list string) (line : string) :
  no_text rt line ->
  (forall full_response, Main.handle_line rt full_response line = full_response)
  /\ Main.read_lines rt (before ++ line :: after)
     = (Main.read_lines rt before ++ Main.read_lines rt after)%list
  /\ Main.read_lines rt (before ++ line :: after) = Main.read_lines rt (before ++ after)
  /\ (forall w image prompt response,
        dispatched rt w image prompt response ->
        aiter_lines response = (before ++ line :: after)%list ->
        Main.generate rt w image prompt = generate_answer rt (before ++ after))
  /\ (forall w messages images response,
        chat_dispatched rt w messages images response ->
        aiter_lines response = (before ++ line :: after)%list ->
        Main.chat rt w messages images = chat_answer rt (before ++ after)).
Proof.
  intros Hno.
  assert (Hskip : Main.read_lines rt (before ++ line :: after)
                  = Main.read_lines rt (before ++ after)).
  { rewrite !read_lines_app, read_lines_cons.
    now rewrite (handle_line_no_text rt [] line Hno). }
  split; [|split; [|split; [|split]]].
  - intros full_response. now apply handle_line_no_text.
  - now rewrite Hskip, read_lines_app.
  - exact Hskip.
  - intros w image prompt response Hd Hlines.
    rewrite (generate_is_generate_answer rt w _ _ _ Hd), Hlines.
    unfold generate_answer. now rewrite Hskip.
  - intros w messages images response Hd Hlines.
    rewrite (chat_is_chat_answer rt w _ _ _ Hd), Hlines.
    unfold chat_answer. now rewrite Hskip.
Qed.

Lemma fragment_without_text_is_skipped_witness :
  Main.read_lines Reference.runtime (aiter_lines failure_between) = ["Hello"; "world"].
Proof.
  refine (eq_trans
            (proj1 (proj2 (fragment_without_text_is_skipped Reference.runtime
                             [Reference.fragment "0" "Hello"]
                             [Reference.fragment "0" "world"]
                             (Reference.fragment "1" "out of memory") _)))
            eq_refl).
  eapply (failing_status Reference.runtime _ _ (JNum (NInt 1))); by_computation.
Defined.

(** ** The worker locator *)

Section Locator.

Context (rt : Runtime) (w : World).

Lemma raise_for_status_error (response : Response) :
  raise_for_status response <> Ok tt ->
  raise_for_status response = Raise (HTTPStatusError (status_code response)).
Proof.
  unfold raise_for_status.
  destruct ((200 <=? status_code response) && (status_code response <=? 299));
    [congruence | reflexivity].
Qed.

Lemma raise_for_status_ok (response : Response) :
  raise_for_status response = Ok tt <-> 200 <= status_code response <= 299.
Proof.
  unfold raise_for_status.
  destruct ((200 <=? status_code response) && (status_code response <=? 299)) eqn:H.
  - apply andb_true_iff in H. rewrite !Z.leb_le in H. tauto.
  - apply andb_false_iff in H. rewrite !Z.leb_gt in H.
    split; [discriminate | lia].
Qed.

(** Both files hold the same locator. *)
Lemma get_worker_address_same (model : string) :
  LlavaMedApi.get_worker_address rt w model = Main.get_worker_address rt w model.
Proof. reflexivity. Qed.

Lemma get_worker_address_cases (model : string) :
  (forall e, lookup w model = Raise e -> is_HTTPError e = true ->
             Main.get_worker_address rt w model = registry_unavailable)
  /\ (forall response, lookup w model = Ok response ->
                       raise_for_status response <> Ok tt ->
                       Main.get_worker_address rt w model = registry_unavailable)
  /\ (forall response fields,
        lookup w model = Ok response ->
        raise_for_status response = Ok tt ->
        response_json rt response = Ok (JObj fields) ->
        dict_get "address" fields = None ->
        Main.get_worker_address rt w model = Raise (KeyError "address"))
  /\ (forall response fields address,
        lookup w model = Ok response ->
        raise_for_status response = Ok tt ->
        response_json rt response = Ok (JObj fields) ->
        dict_get "address" fields = Some address ->
        Main.get_worker_address rt w model = Ok address).
Proof.
  unfold lookup, Main.get_worker_address. repeat split.
  - intros e -> He. simpl. now rewrite He.
  - intros response -> Hstatus. simpl.
    now rewrite (raise_for_status_error _ Hstatus).
  - intros response fields -> Hstatus Hjson Haddr. simpl.
    rewrite Hstatus. simpl. rewrite Hjson. simpl. now rewrite Haddr.
  - intros response fields address -> Hstatus Hjson Haddr. simpl.
    rewrite Hstatus. simpl. rewrite Hjson. simpl. now rewrite Haddr.
Qed.

(** The 503 of the locator is raised inside the [try] of the endpoint and
    caught by its last clause: the client is answered 500. *)
Lemma locator_failure_reaches_client (image prompt : string) :
  (exists processed, read_image w image = Ok processed) ->
  Main.get_worker_address rt w Main.model_name = registry_unavailable ->
  http_status (Main.generate rt w image prompt) = Some 500.
Proof.
  intros [[image_hash base64_image] Himg] Haddr.
  unfold Main.generate, Main.process_image. rewrite Himg. simpl.
  rewrite Haddr. reflexivity.
Qed.

End Locator.

(** C6, as stated, fails: a registry reply of status 200 whose object has
    no address field makes the locator raise [KeyError], not the 503
    failure. *)
Lemma registry_claim_fails : ~ registry_claim Reference.runtime no_address.
Proof.
  intros Hclaim.
  destruct (Hclaim "llava-med-v1.5-mistral-7b") as [_ [_ [Hmissing _]]].
  specialize (Hmissing (Reference.response_of_text 200 "{}") []
                eq_refl eq_refl eq_refl eq_refl).
  vm_compute in Hmissing. discriminate.
Qed.

(** C6 (amended).  For every registry lookup, of main.py and of
    llava_med_api.py alike: a transport failure and a reply whose status is
    not 2xx make the locator fail with the registry-unavailable error, an
    HTTP exception of status 503; a 2xx reply whose object lacks the
    address field makes it fail with [KeyError]; a 2xx reply with an
    address makes it return that address. *)
Theorem locator_outcomes
    (rt : Runtime) (w : World) (model : string) (locate : string -> result json) :
  locate = Main.get_worker_address rt w \/ locate = LlavaMedApi.get_worker_address rt w ->
  (forall e, lookup w model = Raise e -> is_RequestError e = true ->
             locate model = registry_unavailable
             /\ http_status (locate model) = Some 503)
  /\ (forall response, lookup w model = Ok response ->
                       ~ 200 <= status_code response <= 299 ->
                       locate model = registry_unavailable
                       /\ http_status (locate model) = Some 503)
  /\ (forall response fields,
        lookup w model = Ok response ->
        200 <= status_code response <= 299 ->
        response_json rt response = Ok (JObj fields) ->
        dict_get "address" fields = None ->
        locate model = Raise (KeyError "address"))
  /\ (forall response fields address,
        lookup w model = Ok response ->
        200 <= status_code response <= 299 ->
        response_json rt response = Ok (JObj fields) ->
        dict_get "address" fields = Some address ->
        locate model = Ok address).
Proof.
  intros Hlocate.
  assert (Hsame : locate model = Main.get_worker_address rt w model).
  { destruct Hlocate as [-> | ->]; reflexivity. }
  rewrite Hsame.
  destruct (get_worker_address_cases rt w model) as [Hfail [Hstatus [Hmissing Hfound]]].
  split; [|split; [|split]].
  - intros e Hl He.
    rewrite (Hfail e Hl); [split; reflexivity|].
    destruct e; try discriminate; reflexivity.
  - intros response Hl Hs.
    rewrite (Hstatus response Hl); [split; reflexivity|].
    now rewrite raise_for_status_ok.
  - intros response fields Hl Hs. apply Hmissing; [assumption|].
    now apply raise_for_status_ok.
  - intros response fields address Hl Hs. apply Hfound; [assumption|].
    now apply raise_for_status_ok.
Qed.

Lemma locator_outcomes_witness :
  Main.get_worker_address Reference.runtime registry_unreachable "llava-med-v1.5-mistral-7b"
    = registry_unavailable
  /\ LlavaMedApi.get_worker_address Reference.runtime registry_down
       "llava-med-v1.5-mistral-7b" = registry_unavailable
  /\ Main.get_worker_address Reference.runtime no_address "llava-med-v1.5-mistral-7b"
     = Raise (KeyError "address")
  /\ Main.get_worker_address Reference.runtime (answering two_words)
       "llava-med-v1.5-mistral-7b" = Ok (JStr "http://w:1").
Proof.
  split; [|split; [|split]].
  - destruct (locator_outcomes Reference.runtime registry_unreachable
                "llava-med-v1.5-mistral-7b" _ (or_introl eq_refl)) as [H _].
    apply (H (TransportError "connection refused")); reflexivity.
  - destruct (locator_outcomes Reference.runtime registry_down
                "llava-med-v1.5-mistral-7b" _ (or_intror eq_refl)) as [_ [H _]].
    apply (H (Reference.response_of_text 500 "Internal Server Error"));
      [reflexivity | simpl; lia].
  - destruct (locator_outcomes Reference.runtime no_address
                "llava-med-v1.5-mistral-7b" _ (or_introl eq_refl)) as [_ [_ [H _]]].
    apply (H (Reference.response_of_text 200 "{}") []);
      [reflexivity | simpl; lia | reflexivity | reflexivity].
  - destruct (locator_outcomes Reference.runtime (answering two_words)
                "llava-med-v1.5-mistral-7b" _ (or_introl eq_refl)) as [_ [_ [_ H]]].
    apply (H Reference.registry_ok [("address", JStr "http://w:1")]);
      [reflexivity | simpl; lia | reflexivity | reflexivity].
Defined.

(** ** The request builder *)

(** C7.  For a single-turn request with prompt [p], [generate] posts to
    the worker, at the address the registry gave followed by
    "/worker_generate_stream", a payload whose prompt is "[INST] <image>",
    a line feed, [p] and " [/INST]", and whose sampling parameters are
    temperature 0.2 (2 * 10^-1), top_p 0.7, max_new_tokens 512 and stop
    "</s>", with the model name and the encoded image; the answer of
    [generate] is made from the worker's reply to that post.  So it is in
    main.py and in llava_med_api.py. *)
Theorem generate_payload_follows_template
    (rt : Runtime) (w : World) (image p image_hash base64_image : string)
    (worker_address : json) :
  read_image w image = Ok (image_hash, base64_image) ->
  Main.get_worker_address rt w Main.model_name = Ok worker_address ->
  let payload :=
    JObj [("model", JStr "llava-med-v1.5-mistral-7b");
          ("prompt", JStr ("[INST] <image>" ++ LF ++ p ++ " [/INST]"));
          ("temperature", JNum (NDec 2 (-1)));
          ("top_p", JNum (NDec 7 (-1)));
          ("max_new_tokens", JNum (NInt 512));
          ("stop", JStr "</s>");
          ("images", JArr [JStr base64_image])] in
  let url := format rt worker_address ++ "/worker_generate_stream" in
  Main.generate rt w image p
  = try_except
      (response <- worker_post w url payload ;;
       _ <- raise_for_status response ;;
       Main.finish_generate (PyStr.join (Main.read_lines rt (aiter_lines response))))
      (Main.endpoint_except rt)
  /\ LlavaMedApi.generate rt w image p
     = try_except
         (response <- worker_post w url payload ;;
          _ <- raise_for_status response ;;
          LlavaMedApi.read_chunks rt w p (aiter_bytes response))
         (LlavaMedApi.endpoint_except rt)
  /\ (forall e, worker_post w url payload = Raise e ->
        Main.generate rt w image p = Main.endpoint_except rt e
        /\ LlavaMedApi.generate rt w image p = LlavaMedApi.endpoint_except rt e)
  /\ py_getitem payload "prompt"
     = Ok (JStr ("[INST] <image>" ++ LF ++ p ++ " [/INST]"))
  /\ py_getitem payload "temperature" = Ok (JNum (NDec 2 (-1)))
  /\ py_getitem payload "top_p" = Ok (JNum (NDec 7 (-1)))
  /\ py_getitem payload "max_new_tokens" = Ok (JNum (NInt 512))
  /\ py_getitem payload "stop" = Ok (JStr "</s>").
Proof.
  intros Himg Haddr payload url.
  assert (Hm : Main.generate rt w image p
               = try_except
                   (response <- worker_post w url payload ;;
                    _ <- raise_for_status response ;;
                    Main.finish_generate
                      (PyStr.join (Main.read_lines rt (aiter_lines response))))
                   (Main.endpoint_except rt)).
  { unfold Main.generate, Main.process_image. rewrite Himg. cbn [bind].
    rewrite Haddr. reflexivity. }
  assert (Hl : LlavaMedApi.generate rt w image p
               = try_except
                   (response <- worker_post w url payload ;;
                    _ <- raise_for_status response ;;
                    LlavaMedApi.read_chunks rt w p (aiter_bytes response))
                   (LlavaMedApi.endpoint_except rt)).
  { unfold LlavaMedApi.generate, LlavaMedApi.process_image. rewrite Himg.
    cbn [bind].
    change (LlavaMedApi.get_worker_address rt w LlavaMedApi.model_name)
      with (Main.get_worker_address rt w Main.model_name).
    rewrite Haddr. reflexivity. }
  split; [exact Hm|]. split; [exact Hl|]. split.
  - intros e He. rewrite Hm, Hl, He. split; reflexivity.
  - repeat split.
Qed.

Lemma generate_payload_follows_template_witness :
  Main.generate Reference.runtime
    (strict_worker ("[INST] <image>" ++ LF ++ "hi [/INST]") two_words) "img" "hi"
  = generated "Helloworld".
Proof.
  refine (eq_trans
            (proj1 (generate_payload_follows_template Reference.runtime
                      (strict_worker ("[INST] <image>" ++ LF ++ "hi [/INST]") two_words)
                      "img" "hi" "hash" "aW1n" (JStr "http://w:1") _ _))
            eq_refl).
  - reflexivity.
  - reflexivity.
Defined.

(** ** Translation *)

Section Translation.

Context (rt : Runtime) (w : World).

Lemma read_chunks_produced (prompt : string) (response : Response) (t : string) :
  produced_text rt response t ->
  LlavaMedApi.read_chunks rt w prompt (aiter_bytes response)
  = (translated_text <- LlavaMedApi.translate_text w (untranslated prompt t) ;;
     Ok (JObj [("generated_text", translated_text)])).
Proof.
  intros [earlier [last_chunk [chunk_str [Hchunks [Hdec [Hfind Hne]]]]]].
  unfold LlavaMedApi.read_chunks.
  rewrite Hchunks, rev_app_distr. cbn [rev app]. rewrite Hdec. cbn [bind].
  rewrite Hfind. cbn [bind py_truthy py_replace].
  apply is_empty_false in Hne. rewrite Hne. reflexivity.
Qed.

End Translation.

(** C8, as stated, fails: with the answer "No fracture." read from the
    worker and a translator out of quota, [generate] raises an HTTP
    exception of status 500 and returns no text. *)
Lemma best_effort_claim_fails : ~ best_effort_claim Reference.runtime translator_down.
Proof.
  intros Hclaim.
  specialize (Hclaim "img" "hi" one_chunk
                ("[INST] <image>" ++ LF ++ "hi [/INST] No fracture.")
                (OtherException "quota exceeded")).
  assert (Hd : llava_dispatched Reference.runtime translator_down "img" "hi" one_chunk)
    by prove_dispatched.
  assert (Hp : produced_text Reference.runtime one_chunk
                 ("[INST] <image>" ++ LF ++ "hi [/INST] No fracture.")).
  { exists [], (hd EmptyString (aiter_bytes one_chunk)),
      (hd EmptyString (aiter_bytes one_chunk)).
    repeat split; by_computation. }
  specialize (Hclaim Hd Hp eq_refl). vm_compute in Hclaim. discriminate.
Qed.

(** C8 (amended).  When the worker produced usable text and the
    translation collaborator fails, [generate] fails with it: the exception
    is caught by the clauses that close the endpoint, the client is
    answered an HTTP error (500, unless the exception is a request error of
    the HTTP client) and the untranslated text is not returned. *)
Theorem translation_failure_aborts
    (rt : Runtime) (w : World) (image prompt : string) (response : Response)
    (t : string) (e : exn) :
  llava_dispatched rt w image prompt response ->
  produced_text rt response t ->
  LlavaMedApi.translate_text w (untranslated prompt t) = Raise e ->
  LlavaMedApi.generate rt w image prompt = LlavaMedApi.endpoint_except rt e
  /\ (forall body, LlavaMedApi.generate rt w image prompt <> Ok body)
  /\ (is_RequestError e = false ->
      http_status (LlavaMedApi.generate rt w image prompt) = Some 500).
Proof.
  intros Hd Hp Hfail.
  assert (Hg : LlavaMedApi.generate rt w image prompt = LlavaMedApi.endpoint_except rt e).
  { rewrite (llava_generate_dispatched rt w _ _ _ Hd).
    rewrite (read_chunks_produced rt w prompt _ _ Hp), Hfail. reflexivity. }
  rewrite Hg. unfold LlavaMedApi.endpoint_except.
  split; [reflexivity|]. split.
  - intros body. destruct (is_RequestError e); [discriminate|].
    destruct (is_TimeoutException e); discriminate.
  - intros Hreq. rewrite Hreq.
    destruct e; try discriminate; reflexivity.
Qed.

Lemma translation_failure_aborts_witness :
  LlavaMedApi.generate Reference.runtime translator_down "img" "hi"
  = Raise (HTTPException 500 "An unexpected error occurred: quota exceeded").
Proof.
  refine (proj1 (translation_failure_aborts Reference.runtime translator_down
                   "img" "hi" one_chunk
                   ("[INST] <image>" ++ LF ++ "hi [/INST] No fracture.")
                   (OtherException "quota exceeded") _ _ _)).
  - prove_dispatched.
  - exists [], (hd EmptyString (aiter_bytes one_chunk)),
      (hd EmptyString (aiter_bytes one_chunk)).
    repeat split; by_computation.
  - reflexivity.
Defined.

(** ** The final-chunk variant *)

Section LastChunk.

Context (rt : Runtime) (w : World).

Lemma find_text_found (piece : string) (rest : list string)
    (fields : list (string * json)) (t : json) :
  PyStr.strip piece <> EmptyString ->
  json_loads rt piece = Ok (JObj fields) ->
  dict_get "text" fields = Some t ->
  LlavaMedApi.find_text rt (piece :: rest) = Ok t.
Proof.
  intros Hne Hload Htext. cbn [LlavaMedApi.find_text].
  apply is_empty_false in Hne. rewrite Hne, Hload. simpl.
  now rewrite Htext.
Qed.

Lemma read_chunks_last (prompt : string) (earlier earlier' : list string)
    (last_chunk : string) :
  LlavaMedApi.read_chunks rt w prompt (earlier' ++ [last_chunk])
  = LlavaMedApi.read_chunks rt w prompt (earlier ++ [last_chunk]).
Proof.
  unfold LlavaMedApi.read_chunks. now rewrite !rev_app_distr.
Qed.

End LastChunk.

(** The helper of translation.py is the one llava_med_api.py defines. *)
Lemma translate_text_same (w : World) (text : string) :
  Translation.translate_text w text = LlavaMedApi.translate_text w text.
Proof. reflexivity. Qed.

(** A piece that parses to a number, a boolean or null is not passed
    over: the membership test raises and the search ends with it. *)
Lemma find_text_not_iterable (rt : Runtime) (piece : string) (rest : list string)
    (data : json) :
  PyStr.strip piece <> EmptyString ->
  json_loads rt piece = Ok data ->
  py_in "text" data = Raise TypeError ->
  LlavaMedApi.find_text rt (piece :: rest) = Raise TypeError.
Proof.
  intros Hne Hload Hin. cbn [LlavaMedApi.find_text].
  apply is_empty_false in Hne. rewrite Hne, Hload. cbn [bind try_except].
  now rewrite Hin.
Qed.

(** C9, as stated, fails: with the answer "No fracture." in one object
    and the bare number 5 in the piece after it, the last object with a text
    field is the first piece, yet [generate] fails with status 500 and
    returns nothing made from its text. *)
Lemma last_object_claim_fails :
  ~ last_object_claim Reference.runtime (answering number_after_answer).
Proof.
  intros Hclaim.
  specialize (Hclaim "img" "hi" number_after_answer []
                (hd EmptyString (aiter_bytes number_after_answer))
                (hd EmptyString (aiter_bytes number_after_answer))
                [] (Reference.fragment "0" "No fracture.") ["5"]
                [("error_code", JNum (NInt 0)); ("text", JStr "No fracture.")]
                "No fracture.").
  assert (Hd : llava_dispatched Reference.runtime (answering number_after_answer)
                 "img" "hi" number_after_answer) by prove_dispatched.
  assert (Hafter : Forall (fun later => ~ object_with_text Reference.runtime later)
                     ["5"]).
  { constructor; [|constructor]. intros [fields [t [Hload _]]]. discriminate. }
  specialize (Hclaim Hd eq_refl eq_refl eq_refl ltac:(by_computation) eq_refl
                eq_refl ltac:(discriminate) Hafter).
  vm_compute in Hclaim. discriminate.
Qed.

(** C9 (amended).  [generate] of llava_med_api.py reads the last chunk the
    byte iterator yields and nothing before it.  Within that chunk, when
    every piece after the last JSON object with a text field is blank, is
    not JSON, or is a value that holds no "text", [full_text] is the text
    field of that object and the pieces before it contribute nothing; when
    that text is a non-empty string the answer is made from it alone:
    template removed, trimmed, translated. *)
Theorem last_chunk_last_object
    (rt : Runtime) (w : World) (image prompt : string) (response : Response)
    (earlier : list string) (last_chunk chunk_str : string)
    (before after : list string) (piece : string)
    (fields : list (string * json)) (t : json) :
  llava_dispatched rt w image prompt response ->
  aiter_bytes response = (earlier ++ [last_chunk])%list ->
  decode_utf8 rt last_chunk = Ok chunk_str ->
  PyStr.split NUL chunk_str = (before ++ piece :: after)%list ->
  PyStr.strip piece <> EmptyString ->
  json_loads rt piece = Ok (JObj fields) ->
  dict_get "text" fields = Some t ->
  Forall (passed_over rt) after ->
  LlavaMedApi.find_text rt (rev (PyStr.split NUL chunk_str)) = Ok t
  /\ (forall s,
        t = JStr s -> s <> EmptyString ->
        LlavaMedApi.generate rt w image prompt
        = try_except
            (translated_text <- LlavaMedApi.translate_text w (untranslated prompt s) ;;
             Ok (JObj [("generated_text", translated_text)]))
            (LlavaMedApi.endpoint_except rt)).
Proof.
  intros Hd Hchunks Hdec Hsplit Hne Hload Htext Hafter.
  assert (Hfind : LlavaMedApi.find_text rt (rev (PyStr.split NUL chunk_str)) = Ok t).
  { rewrite Hsplit, rev_app_distr. cbn [rev]. rewrite <- app_assoc.
    rewrite find_text_passed_over by (apply Forall_rev; assumption).
    cbn [app]. eapply find_text_found; eauto. }
  split; [assumption|].
  intros s -> Hs.
  rewrite (llava_generate_dispatched rt w _ _ _ Hd).
  rewrite (read_chunks_produced rt w prompt response s); [reflexivity|].
  exists earlier, last_chunk, chunk_str. auto.
Qed.

Lemma last_chunk_last_object_witness :
  LlavaMedApi.generate Reference.runtime translator_up "img" "hi"
  = generated "Tidak ada fraktur.".
Proof.
  refine (eq_trans
            (proj2
               (last_chunk_last_object Reference.runtime translator_up "img" "hi"
                  one_chunk []
                  (hd EmptyString (aiter_bytes one_chunk))
                  (hd EmptyString (aiter_bytes one_chunk))
                  [Reference.fragment "0" "partial"] [EmptyString]
                  (Reference.fragment "0" "[INST] <image>\nhi [/INST] No fracture.")
                  [("error_code", JNum (NInt 0));
                   ("text", JStr ("[INST] <image>" ++ LF ++ "hi [/INST] No fracture."))]
                  (JStr ("[INST] <image>" ++ LF ++ "hi [/INST] No fracture."))
                  _ _ _ _ _ _ _ _)
               ("[INST] <image>" ++ LF ++ "hi [/INST] No fracture.") eq_refl _)
            eq_refl).
  - prove_dispatched.
  - reflexivity.
  - reflexivity.
  - reflexivity.
  - by_computation.
  - reflexivity.
  - reflexivity.
  - constructor; [left; reflexivity | constructor].
  - by_computation.
Defined.

(** ** Trimming in the line loop *)

Lemma strip_trimmed_from (t : string) : trimmed_from t (PyStr.strip t).
Proof.
  destruct (strip_spec t) as [[l [r [Ht [Hl Hr]]]] [Hhead Hlast]].
  split; [split; assumption|]. exists l, r. auto.
Qed.

(** C10.  In the line loop of [generate] and [chat] the text of every
    usable fragment, structured or raw, is appended without the white
    space at its two ends, and the buffer is joined without a separator:
    the aggregate is the concatenation of the trimmed texts.  White space
    at the border of two fragments is lost, as for "Hello " and "world",
    whose aggregate is not their concatenation. *)
Theorem fragments_are_trimmed_then_joined
    (rt : Runtime) (lines texts : list string) :
  Forall2 (fragment_text rt) lines texts ->
  Forall2 trimmed_from texts (Main.read_lines rt lines)
  /\ Main.read_lines rt lines = map PyStr.strip texts
  /\ PyStr.join (Main.read_lines rt lines) = PyStr.join (map PyStr.strip texts)
  /\ (forall w image prompt response,
        dispatched rt w image prompt response ->
        aiter_lines response = lines ->
        Main.generate rt w image prompt
        = try_except (Main.finish_generate (PyStr.join (map PyStr.strip texts)))
            (Main.endpoint_except rt))
  /\ (forall w messages images response,
        chat_dispatched rt w messages images response ->
        aiter_lines response = lines ->
        PyStr.join (map PyStr.strip texts) <> EmptyString ->
        Main.chat rt w messages images = generated (PyStr.join (map PyStr.strip texts)))
  /\ PyStr.join (map PyStr.strip ["Hello "; "world"]) <> PyStr.join ["Hello "; "world"].
Proof.
  intros Hlines.
  pose proof (read_lines_fragments rt lines texts Hlines) as Hbuf.
  rewrite Hbuf.
  split; [|split; [|split; [|split; [|split]]]]; try reflexivity.
  - clear. induction texts as [|t texts IH]; constructor;
      [apply strip_trimmed_from | assumption].
  - intros w image prompt response Hd <-.
    rewrite (generate_dispatched rt w _ _ _ Hd). now rewrite Hbuf.
  - intros w messages images response Hd <- Hne.
    rewrite (chat_dispatched_eq rt w _ _ _ Hd). cbv zeta. rewrite Hbuf.
    apply is_empty_false in Hne. now rewrite Hne.
  - discriminate.
Qed.

Lemma fragments_are_trimmed_then_joined_witness :
  PyStr.join (Main.read_lines Reference.runtime
                [Reference.fragment "0" "Hello "; "  raw line "; Reference.fragment "0" "world"])
  = "Helloraw lineworld".
Proof.
  refine (eq_trans
            (proj1 (proj2 (proj2
               (fragments_are_trimmed_then_joined Reference.runtime
                  [Reference.fragment "0" "Hello "; "  raw line ";
                   Reference.fragment "0" "world"]
                  ["Hello "; "  raw line "; "world"] _))))
            eq_refl).
  constructor; [apply text_of_delta; prove_text_delta|].
  constructor; [apply text_of_raw; split; by_computation|].
  constructor; [apply text_of_delta; prove_text_delta | constructor].
Defined.

(** * Further properties *)

(** ** Status codes of the endpoints *)

Section Statuses.

Context (rt : Runtime).

Lemma endpoint_except_outcome (e : exn) :
  Main.endpoint_except rt e
  = Raise (HTTPException (if is_RequestError e then 503 else 500)
             (if is_RequestError e then "Service unavailable due to network error"
              else "An unexpected error occurred: " ++ exn_str rt e)).
Proof. destruct e; reflexivity. Qed.

Lemma try_except_outcome (r : result json) :
  endpoint_outcome (try_except r (Main.endpoint_except rt)).
Proof.
  destruct r as [body|e]; simpl.
  - left. eauto.
  - rewrite endpoint_except_outcome. destruct (is_RequestError e).
    + right. right. eauto.
    + right. left. eauto.
Qed.

Lemma endpoint_outcome_not_504 (r : result json) :
  endpoint_outcome r -> http_status r <> Some 504.
Proof.
  intros [[body ->] | [[detail ->] | [detail ->]]]; simpl; congruence.
Qed.

Lemma try_except_ok (r : result json) (body : json) :
  try_except r (Main.endpoint_except rt) = Ok body -> r = Ok body.
Proof.
  destruct r as [b|e]; simpl; [auto|].
  rewrite endpoint_except_outcome. discriminate.
Qed.

Lemma generate_reaches_worker (w : World) (image prompt : string)
    (reply : result Response) :
  reaches_worker rt w image prompt reply ->
  Main.generate rt w image prompt
  = try_except
      (response <- reply ;;
       _ <- raise_for_status response ;;
       Main.finish_generate (PyStr.join (Main.read_lines rt (aiter_lines response))))
      (Main.endpoint_except rt)
  /\ LlavaMedApi.generate rt w image prompt
     = try_except
         (response <- reply ;;
          _ <- raise_for_status response ;;
          LlavaMedApi.read_chunks rt w prompt (aiter_bytes response))
         (LlavaMedApi.endpoint_except rt).
Proof.
  intros [image_hash [base64_image [worker_address [Himg [Haddr Hpost]]]]].
  unfold Main.generate, LlavaMedApi.generate, Main.process_image,
    LlavaMedApi.process_image.
  change (LlavaMedApi.get_worker_address rt w LlavaMedApi.model_name)
    with (Main.get_worker_address rt w Main.model_name).
  rewrite Himg. cbn [bind]. rewrite Haddr. cbn [bind].
  change (LlavaMedApi.generate_payload prompt base64_image)
    with (Main.generate_payload prompt base64_image).
  rewrite Hpost. split; reflexivity.
Qed.

Lemma locator_fails (w : World) (model : string) :
  lookup_fails w model ->
  Main.get_worker_address rt w model = registry_unavailable.
Proof.
  destruct (get_worker_address_cases rt w model) as [Hfail [Hstatus _]].
  intros [[e [Hl He]] | [response [Hl Hs]]].
  - apply (Hfail e Hl). destruct e; try discriminate; reflexivity.
  - apply (Hstatus response Hl Hs).
Qed.

End Statuses.

(** X1.  Whatever the image, the registry, the worker and the translator
    do, the three endpoints answer with a body or with an HTTP error of
    status 500 or 503.  The status 504 of the clause for timeouts is never
    sent: a timeout is a request error and is taken by the clause before
    it. *)
Theorem endpoints_answer_500_or_503
    (rt : Runtime) (w : World) (image prompt : string) (messages : list json)
    (images : list string) :
  endpoint_outcome (Main.generate rt w image prompt)
  /\ endpoint_outcome (Main.chat rt w messages images)
  /\ endpoint_outcome (LlavaMedApi.generate rt w image prompt)
  /\ http_status (Main.generate rt w image prompt) <> Some 504
  /\ http_status (Main.chat rt w messages images) <> Some 504
  /\ http_status (LlavaMedApi.generate rt w image prompt) <> Some 504
  /\ Main.endpoint_except rt TimeoutException
     = Raise (HTTPException 503 "Service unavailable due to network error").
Proof.
  assert (Hg : endpoint_outcome (Main.generate rt w image prompt))
    by apply try_except_outcome.
  assert (Hc : endpoint_outcome (Main.chat rt w messages images))
    by apply try_except_outcome.
  assert (Hl : endpoint_outcome (LlavaMedApi.generate rt w image prompt))
    by apply (try_except_outcome rt).
  repeat split; try assumption; now apply endpoint_outcome_not_504.
Qed.

(** X2.  When the post to the worker raises, or the worker answers with a
    status outside 2xx, both [generate] endpoints fail with that exception
    put through the closing clauses: status 503 for a request error of the
    HTTP client, a timeout among them, and 500 for everything else, a
    status error among them. *)
Theorem worker_failure_status
    (rt : Runtime) (w : World) (image prompt : string) (reply : result Response)
    (e : exn) :
  reaches_worker rt w image prompt reply ->
  worker_fails reply e ->
  Main.generate rt w image prompt = Main.endpoint_except rt e
  /\ LlavaMedApi.generate rt w image prompt = LlavaMedApi.endpoint_except rt e
  /\ http_status (Main.generate rt w image prompt)
     = Some (if is_RequestError e then 503 else 500)
  /\ http_status (LlavaMedApi.generate rt w image prompt)
     = Some (if is_RequestError e then 503 else 500).
Proof.
  intros Hreach Hfail.
  destruct (generate_reaches_worker rt w _ _ _ Hreach) as [Hm Hl].
  assert (Hbody : forall k : Response -> result json,
             (response <- reply ;; _ <- raise_for_status response ;; k response)
             = Raise e).
  { intros k. destruct Hfail as [-> | [response [-> Hs]]]; cbn [bind];
      [reflexivity | now rewrite Hs]. }
  rewrite Hm, Hl, !Hbody. cbn [try_except].
  change (LlavaMedApi.endpoint_except rt e) with (Main.endpoint_except rt e).
  rewrite endpoint_except_outcome. repeat split.
Qed.

Lemma worker_failure_status_witness :
  http_status (Main.generate Reference.runtime worker_timeout "img" "hi") = Some 503
  /\ http_status (LlavaMedApi.generate Reference.runtime worker_bad_gateway "img" "hi")
     = Some 500.
Proof.
  split.
  - refine (proj1 (proj2 (proj2
              (worker_failure_status Reference.runtime worker_timeout "img" "hi"
                 (Raise TimeoutException) TimeoutException _ _)))).
    + do 3 eexists. repeat split; reflexivity.
    + left. reflexivity.
  - refine (proj2 (proj2 (proj2
              (worker_failure_status Reference.runtime worker_bad_gateway "img" "hi"
                 (Ok (Reference.response_of_lines 502 [])) (HTTPStatusError 502) _ _)))).
    + do 3 eexists. repeat split; reflexivity.
    + right. eexists. split; reflexivity.
Defined.

(** X3.  A registry lookup that fails, by a transport failure or a status
    outside 2xx, is answered to the client with status 500 by all three
    endpoints: the 503 raised by the locator is caught by the last clause
    of the endpoint, as any exception is, and raised again as 500. *)
Theorem registry_failure_is_answered_500
    (rt : Runtime) (w : World) (image prompt : string) (messages : list json)
    (images : list string) :
  lookup_fails w Main.model_name ->
  (exists processed, read_image w image = Ok processed) ->
  http_status (Main.generate rt w image prompt) = Some 500
  /\ http_status (LlavaMedApi.generate rt w image prompt) = Some 500
  /\ http_status (Main.chat rt w messages images) = Some 500.
Proof.
  intros Hfail [[image_hash base64_image] Himg].
  pose proof (locator_fails rt w _ Hfail) as Haddr.
  unfold Main.generate, LlavaMedApi.generate, Main.chat, Main.process_image,
    LlavaMedApi.process_image.
  change (LlavaMedApi.get_worker_address rt w LlavaMedApi.model_name)
    with (Main.get_worker_address rt w Main.model_name).
  rewrite Himg. cbn [bind]. rewrite Haddr. repeat split.
Qed.

Lemma registry_failure_is_answered_500_witness :
  http_status (Main.generate Reference.runtime registry_down "img" "hi") = Some 500
  /\ http_status (Main.chat Reference.runtime registry_unreachable [] []) = Some 500.
Proof.
  split.
  - refine (proj1 (registry_failure_is_answered_500 Reference.runtime registry_down
                     "img" "hi" [] [] _ _)).
    + right. eexists. split; [reflexivity | discriminate].
    + eexists. reflexivity.
  - refine (proj2 (proj2 (registry_failure_is_answered_500 Reference.runtime
                            registry_unreachable "img" "hi" [] [] _ _))).
    + left. eexists. split; reflexivity.
    + eexists. reflexivity.
Defined.

(** ** Images of a chat request *)

Lemma process_images_app (w : World) (good rest : list string)
    (encoded : list string) (processed_images : list json) :
  Forall2 (encodes w) good encoded ->
  Main.process_images w (good ++ rest) processed_images
  = Main.process_images w rest (processed_images ++ map JStr encoded).
Proof.
  intros H. revert processed_images.
  induction H as [|image b64 good encoded [image_hash Himg] _ IH];
    intros processed_images.
  - simpl. now rewrite app_nil_r.
  - cbn [app Main.process_images]. unfold Main.process_image.
    rewrite Himg. cbn [bind]. rewrite IH, <- app_assoc. reflexivity.
Qed.

(** X4.  The loop over the uploads of [chat] encodes them in order, one
    entry for each upload: when every upload can be read the list for the
    payload holds their base64 texts in upload order; the first upload that
    cannot be read ends the loop with its exception, whatever follows
    it. *)
Theorem process_images_keeps_order
    (w : World) (good encoded : list string) :
  Forall2 (encodes w) good encoded ->
  Main.process_images w good [] = Ok (map JStr encoded)
  /\ length (map JStr encoded) = length good
  /\ (forall bad rest e,
        read_image w bad = Raise e ->
        Main.process_images w (good ++ bad :: rest) [] = Raise e).
Proof.
  intros H. split; [|split].
  - rewrite <- (app_nil_r good), (process_images_app w good [] encoded [] H).
    reflexivity.
  - rewrite length_map. symmetry. eapply Forall2_length; eauto.
  - intros bad rest e Hbad.
    rewrite (process_images_app w good (bad :: rest) encoded [] H).
    cbn [Main.process_images]. unfold Main.process_image. now rewrite Hbad.
Qed.

Lemma process_images_keeps_order_witness :
  Main.process_images encoding_world ["first"; "second"] []
  = Ok [JStr "b64:first"; JStr "b64:second"].
Proof.
  refine (proj1 (process_images_keeps_order encoding_world ["first"; "second"]
                   ["b64:first"; "b64:second"] _)).
  repeat constructor; exists "hash"; reflexivity.
Defined.

(** X5.  [generate] reads the image before it asks the registry, [chat]
    asks the registry before it reads any image: with an unreadable image
    and a failing lookup, [generate] fails with the exception of the image
    and [chat] with that of the lookup. *)
Theorem failure_precedence
    (rt : Runtime) (w : World) (image prompt : string) (messages : list json)
    (images : list string) (e_image e_lookup : exn) :
  read_image w image = Raise e_image ->
  Main.get_worker_address rt w Main.model_name = Raise e_lookup ->
  Main.generate rt w image prompt = Main.endpoint_except rt e_image
  /\ LlavaMedApi.generate rt w image prompt = LlavaMedApi.endpoint_except rt e_image
  /\ Main.chat rt w messages (image :: images) = Main.endpoint_except rt e_lookup.
Proof.
  intros Himg Haddr.
  unfold Main.generate, LlavaMedApi.generate, Main.chat, Main.process_image,
    LlavaMedApi.process_image.
  rewrite Himg, Haddr. repeat split.
Qed.

Lemma failure_precedence_witness :
  Main.generate Reference.runtime nothing_works "img" "hi"
    = Raise (HTTPException 500 "An unexpected error occurred: cannot identify image file")
  /\ Main.chat Reference.runtime nothing_works [] ["img"]
     = Raise (HTTPException 500
                "An unexpected error occurred: 503: Failed to get worker address from controller").
Proof.
  destruct (failure_precedence Reference.runtime nothing_works "img" "hi" [] []
              (OtherException "cannot identify image file")
              (HTTPException 503 "Failed to get worker address from controller")
              eq_refl eq_refl) as [Hg [_ Hc]].
  split; [exact (eq_trans Hg eq_refl) | exact (eq_trans Hc eq_refl)].
Defined.

(** ** Lines of the worker stream *)

Section Lines.

Context (rt : Runtime).

(** No frame, or one data frame. *)
Lemma frames_of_bind {A : Type} (r : result A) (k : A -> result (list string)) :
  (forall a frames, k a = Ok frames ->
     frames = [] \/ exists body, frames = ["data: " ++ body ++ LF ++ LF]) ->
  forall frames, bind r k = Ok frames ->
    frames = [] \/ exists body, frames = ["data: " ++ body ++ LF ++ LF].
Proof.
  intros Hk frames. destruct r as [a|e]; cbn [bind]; [apply Hk | discriminate].
Qed.

Lemma sse_line_cases (line : string) :
  LlavaMedApi.sse_line rt line = []
  \/ (nonempty line = true
      /\ exists body, LlavaMedApi.sse_line rt line = ["data: " ++ body ++ LF ++ LF]).
Proof.
  unfold LlavaMedApi.sse_line, nonempty.
  destruct (PyStr.is_empty line); [left; reflexivity|]. cbn [negb].
  match goal with
  | |- context [match ?r with Ok _ => _ | Raise _ => _ end] =>
      assert (Hbody : forall frames, r = Ok frames ->
                frames = [] \/ exists body, frames = ["data: " ++ body ++ LF ++ LF]);
      [|destruct r as [frames|e]]
  end.
  - apply frames_of_bind. intros data.
    apply frames_of_bind. intros [|]; [|intros frames [= <-]; now left].
    apply frames_of_bind. intros status.
    apply frames_of_bind. intros [|]; apply frames_of_bind; intros t frames [= <-];
      right.
    + eexists. reflexivity.
    + exists ("Error: " ++ format rt t). reflexivity.
  - destruct (Hbody frames eq_refl) as [-> | [body ->]]; [now left|].
    right. split; [reflexivity|]. now exists body.
  - destruct (is_JSONDecodeError e); [|now left].
    right. split; [reflexivity|]. eexists. reflexivity.
Qed.

Lemma sse_lines_framed (lines : list string) :
  Forall sse_framed (LlavaMedApi.sse_lines rt lines).
Proof.
  induction lines as [|line lines IH]; [constructor|].
  rewrite sse_lines_cons.
  destruct (sse_line_cases line) as [-> | [_ [body ->]]]; [exact IH|].
  constructor; [exists body; reflexivity | exact IH].
Qed.

Lemma sse_lines_bound (lines : list string) :
  (length (LlavaMedApi.sse_lines rt lines) <= length (filter nonempty lines))%nat.
Proof.
  induction lines as [|line lines IH]; [simpl; lia|].
  rewrite sse_lines_cons. cbn [filter].
  destruct (sse_line_cases line) as [-> | [-> [body ->]]]; simpl.
  - destruct (nonempty line); simpl; lia.
  - lia.
Qed.

Lemma handle_line_empty (acc : list string) (line : string) :
  nonempty line = false -> Main.handle_line rt acc line = acc.
Proof.
  unfold nonempty, Main.handle_line. now destruct (PyStr.is_empty line).
Qed.

Lemma sse_line_empty (line : string) :
  nonempty line = false -> LlavaMedApi.sse_line rt line = [].
Proof.
  unfold nonempty, LlavaMedApi.sse_line. now destruct (PyStr.is_empty line).
Qed.

Lemma read_lines_bound (lines : list string) :
  (length (Main.read_lines rt lines) <= length (filter nonempty lines))%nat.
Proof.
  induction lines as [|line lines IH]; [simpl; lia|].
  rewrite read_lines_cons. cbn [filter]. rewrite length_app.
  destruct (nonempty line) eqn:Hne.
  - destruct (handle_line_cases rt line) as [-> | [t [_ ->]]]; simpl; lia.
  - rewrite (handle_line_empty [] line Hne). simpl. lia.
Qed.

Lemma read_lines_filter (lines : list string) :
  Main.read_lines rt (filter nonempty lines) = Main.read_lines rt lines.
Proof.
  induction lines as [|line lines IH]; [reflexivity|].
  cbn [filter]. destruct (nonempty line) eqn:Hne.
  - now rewrite !read_lines_cons, IH.
  - now rewrite read_lines_cons, (handle_line_empty [] line Hne), IH.
Qed.

Lemma sse_lines_filter (lines : list string) :
  LlavaMedApi.sse_lines rt (filter nonempty lines) = LlavaMedApi.sse_lines rt lines.
Proof.
  induction lines as [|line lines IH]; [reflexivity|].
  cbn [filter]. destruct (nonempty line) eqn:Hne.
  - now rewrite !sse_lines_cons, IH.
  - now rewrite sse_lines_cons, (sse_line_empty line Hne), IH.
Qed.

Lemma ignored_handle_line (acc : list string) (line : string) :
  ignored rt line -> Main.handle_line rt acc line = acc.
Proof.
  intros H. unfold Main.handle_line.
  destruct (PyStr.is_empty line); [reflexivity|].
  destruct H as [l data Hload Hobj | l fields Hload Hcode | l e Hload He];
    rewrite Hload; cbn [bind].
  - destruct data as [| b | n | s | items | fields]; cbn [py_in bind];
      try reflexivity.
    + destruct (PyStr.contains "error_code" s); reflexivity.
    + destruct (existsb (is_JStr "error_code") items); reflexivity.
    + exfalso. now apply (Hobj fields).
  - cbn [py_in bind]. now rewrite Hcode.
  - now rewrite He.
Qed.

Lemma ignored_sse_line (line : string) :
  ignored rt line -> LlavaMedApi.sse_line rt line = [].
Proof.
  intros H. unfold LlavaMedApi.sse_line.
  destruct (PyStr.is_empty line); [reflexivity|].
  destruct H as [l data Hload Hobj | l fields Hload Hcode | l e Hload He];
    rewrite Hload; cbn [bind].
  - destruct data as [| b | n | s | items | fields]; cbn [py_in bind];
      try reflexivity.
    + destruct (PyStr.contains "error_code" s); reflexivity.
    + destruct (existsb (is_JStr "error_code") items); reflexivity.
    + exfalso. now apply (Hobj fields).
  - cbn [py_in bind]. now rewrite Hcode.
  - now rewrite He.
Qed.

End Lines.

(** X6.  Every frame the SSE generator yields, for whatever the worker
    sends, has the shape of a data frame: "data: ", a body and two line
    feeds.  A line yields at most one frame and an empty line none, so
    there are never more frames than non-empty lines, the sentinel
    apart. *)
Theorem sse_frames_are_data_frames
    (rt : Runtime) (w : World) (worker_address : string) (payload : json)
    (lines : list string) :
  Forall sse_framed (LlavaMedApi.sse_lines rt lines)
  /\ (length (LlavaMedApi.sse_lines rt lines) <= length (filter nonempty lines))%nat
  /\ Forall sse_framed
       (fst (LlavaMedApi.stream_generator rt w worker_address payload)).
Proof.
  split; [apply sse_lines_framed | split; [apply sse_lines_bound|]].
  unfold LlavaMedApi.stream_generator.
  destruct (worker_stream w _ payload) as [response|e]; [|constructor].
  destruct (raise_for_status response); [|constructor].
  destruct (stream_error response); cbn [fst]; [apply sse_lines_framed|].
  apply Forall_app. split; [apply sse_lines_framed|].
  constructor; [|constructor]. exists "[DONE]". reflexivity.
Qed.

(** X7.  In the SSE relay a structured fragment that has a status field
    and no text field is reported as the frame "data: Error: Unknown
    error", whether its status is a success or a failure; the aggregation
    loop of main.py appends nothing for the same line. *)
Theorem missing_text_is_an_unknown_error
    (rt : Runtime) (line : string) (fields : list (string * json)) (status : json)
    (full_response : list string) :
  line <> EmptyString ->
  json_loads rt line = Ok (JObj fields) ->
  dict_get "error_code" fields = Some status ->
  dict_get "text" fields = None ->
  LlavaMedApi.sse_line rt line = ["data: Error: Unknown error" ++ LF ++ LF]
  /\ Main.handle_line rt full_response line = full_response.
Proof.
  intros Hne Hload Hcode Htext.
  apply is_empty_false in Hne.
  unfold LlavaMedApi.sse_line, Main.handle_line.
  rewrite Hne, Hload. cbn [bind py_in py_getitem py_get].
  rewrite Hcode. cbn [bind]. rewrite Htext.
  destruct (py_eq_zero status); split; reflexivity.
Qed.

Lemma missing_text_is_an_unknown_error_witness :
  LlavaMedApi.sse_line Reference.runtime ("{" ++ Reference.quoted "error_code" ++ ": 0}")
  = ["data: Error: Unknown error" ++ LF ++ LF].
Proof.
  refine (proj1 (missing_text_is_an_unknown_error Reference.runtime
                   ("{" ++ Reference.quoted "error_code" ++ ": 0}")
                   [("error_code", JNum (NInt 0))] (JNum (NInt 0)) [] _ _ _ _));
    by_computation.
Defined.

(** X8.  A line that parses to JSON that is not an object (a number, a
    string, a list, a boolean, null), an object without a status field, and
    a line on which the JSON reader fails with another exception than its
    decode error are passed over in silence by both modes: no frame, no
    text, and the lines around them are read as if the line were not
    there. *)
Theorem ignored_lines_leave_no_trace
    (rt : Runtime) (before after : list string) (line : string) :
  ignored rt line ->
  LlavaMedApi.sse_line rt line = []
  /\ (forall full_response, Main.handle_line rt full_response line = full_response)
  /\ LlavaMedApi.sse_lines rt (before ++ line :: after)
     = LlavaMedApi.sse_lines rt (before ++ after)
  /\ Main.read_lines rt (before ++ line :: after) = Main.read_lines rt (before ++ after).
Proof.
  intros H.
  pose proof (ignored_sse_line rt line H) as Hsse.
  pose proof (fun acc => ignored_handle_line rt acc line H) as Hbuf.
  split; [assumption | split; [assumption | split]].
  - now rewrite !sse_lines_app, sse_lines_cons, Hsse.
  - now rewrite !read_lines_app, read_lines_cons, Hbuf.
Qed.

Lemma ignored_lines_leave_no_trace_witness :
  Main.read_lines Reference.runtime
    [Reference.fragment "0" "Hello"; "[1, 2]"; Reference.fragment "0" "world"]
  = ["Hello"; "world"].
Proof.
  refine (eq_trans
            (proj2 (proj2 (proj2
               (ignored_lines_leave_no_trace Reference.runtime
                  [Reference.fragment "0" "Hello"] [Reference.fragment "0" "world"]
                  "[1, 2]" _))))
            eq_refl).
  apply (not_an_object Reference.runtime "[1, 2]" (JArr [JNum (NInt 1); JNum (NInt 2)]));
    [reflexivity | discriminate].
Defined.

(** X9.  Both modes decode line by line, with no state carried from one
    line to the next: the buffer, and the frames, of two streams one after
    the other are those of the first followed by those of the second.
    Empty lines change nothing, and the buffer never holds more entries
    than the stream has non-empty lines. *)
Theorem decoding_is_line_by_line
    (rt : Runtime) (first second lines : list string) :
  Main.read_lines rt (first ++ second)
  = (Main.read_lines rt first ++ Main.read_lines rt second)%list
  /\ LlavaMedApi.sse_lines rt (first ++ second)
     = (LlavaMedApi.sse_lines rt first ++ LlavaMedApi.sse_lines rt second)%list
  /\ Main.read_lines rt (filter nonempty lines) = Main.read_lines rt lines
  /\ LlavaMedApi.sse_lines rt (filter nonempty lines) = LlavaMedApi.sse_lines rt lines
  /\ (length (Main.read_lines rt lines) <= length (filter nonempty lines))%nat.
Proof.
  split; [apply read_lines_app|].
  split; [apply sse_lines_app|].
  split; [apply read_lines_filter|].
  split; [apply sse_lines_filter | apply read_lines_bound].
Qed.

(** ** The answer of [generate] in main.py *)

Lemma bind_ok {A B : Type} (r : result A) (k : A -> result B) (b : B) :
  bind r k = Ok b -> exists a, r = Ok a /\ k a = Ok b.
Proof. destruct r as [a|e]; cbn [bind]; [eauto | discriminate]. Qed.

Lemma occurs_in_strip (marker x : string) :
  occurs marker (PyStr.strip x) -> occurs marker x.
Proof.
  intros [a [b H]].
  destruct (strip_spec x) as [[l [r [Hx _]]] _].
  exists (l ++ a), (b ++ r). rewrite Hx at 1. rewrite H.
  now rewrite !append_assoc.
Qed.

Lemma after_last_occurrence (marker s before after : string) :
  marker <> EmptyString ->
  last_occurrence marker s before after ->
  ~ occurs marker after.
Proof.
  intros Hne [Hs Hmax] [a [b Hafter]].
  specialize (Hmax (before ++ marker ++ a) b).
  rewrite !length_append in Hmax.
  assert (String.length marker <> 0)%nat by (destruct marker; simpl; congruence).
  enough (String.length before + (String.length marker + String.length a)
          <= String.length before)%nat by lia.
  apply Hmax. rewrite Hs, Hafter. now rewrite !append_assoc.
Qed.

Lemma strip_trimmed (x : string) : trimmed (PyStr.strip x).
Proof. destruct (strip_spec x) as [_ [Hhead Hlast]]. split; assumption. Qed.

Lemma marker_cases (marker s : string) :
  ~ occurs marker s \/ exists before after, last_occurrence marker s before after.
Proof.
  destruct (rfind_from_spec marker s 0 ltac:(lia)) as [[_ Hno] | [b [a [Hl _]]]];
    [now left | right; eauto].
Qed.

Lemma generated_inj (g1 g2 : string) : generated g1 = generated g2 -> g1 = g2.
Proof. unfold generated. congruence. Qed.

Lemma finish_generate_clean (complete_response g : string) :
  Main.finish_generate complete_response = generated g ->
  trimmed g /\ ~ occurs "[/INST]" g.
Proof.
  intros H.
  destruct (string_dec complete_response EmptyString) as [-> | Hne];
    [discriminate|].
  destruct (marker_cases "[/INST]" complete_response)
    as [Hno | [before [after Hlast]]].
  - rewrite (finish_generate_no_marker _ Hne Hno) in H.
    apply generated_inj in H. subst g. split; [apply strip_trimmed|].
    intros Hocc. apply Hno. now apply occurs_in_strip.
  - rewrite (finish_generate_after_marker _ _ _ Hne Hlast) in H.
    apply generated_inj in H. subst g. split; [apply strip_trimmed|].
    intros Hocc. apply occurs_in_strip in Hocc.
    revert Hocc.
    apply (after_last_occurrence "[/INST]" complete_response before after);
      [discriminate | exact Hlast].
Qed.

Lemma generate_ok_finish (rt : Runtime) (w : World) (image prompt : string)
    (body : json) :
  Main.generate rt w image prompt = Ok body ->
  exists complete_response, Main.finish_generate complete_response = Ok body.
Proof.
  unfold Main.generate. intros H. apply try_except_ok in H.
  apply bind_ok in H. destruct H as [[image_hash base64_image] [_ H]].
  apply bind_ok in H. destruct H as [worker_address [_ H]].
  apply bind_ok in H. destruct H as [response [_ H]].
  apply bind_ok in H. destruct H as [[] [_ H]].
  eauto.
Qed.

(** X10.  Whenever [generate] of main.py succeeds, its body holds one
    string under "generated_text"; that string has no white space at its
    two ends and does not contain the closing instruction marker
    "[/INST]": what the worker echoes up to the last marker never reaches
    the client. *)
Theorem generated_text_is_clean
    (rt : Runtime) (w : World) (image prompt : string) (body : json) :
  Main.generate rt w image prompt = Ok body ->
  exists g, body = JObj [("generated_text", JStr g)]
            /\ trimmed g /\ ~ occurs "[/INST]" g.
Proof.
  intros H. destruct (generate_ok_finish rt w _ _ _ H) as [complete Hfinish].
  destruct (string_dec complete EmptyString) as [-> | Hne]; [discriminate|].
  pose proof Hfinish as Hbody.
  rewrite (finish_generate_nonempty complete Hne) in Hbody.
  injection Hbody as <-. eexists. split; [reflexivity|].
  apply (finish_generate_clean complete).
  now rewrite (finish_generate_nonempty complete Hne).
Qed.

Lemma generated_text_is_clean_witness :
  exists g, JObj [("generated_text", JStr "The scanshows no fracture.")]
            = JObj [("generated_text", JStr g)]
            /\ trimmed g /\ ~ occurs "[/INST]" g.
Proof.
  apply (generated_text_is_clean Reference.runtime (answering echoed_answer)
           "img" "hi").
  reflexivity.
Defined.

(** *** The last character *)

Lemma append_last_inv (a b x : string) (c : ascii) :
  a ++ b = x ++ String c EmptyString ->
  (b = EmptyString /\ a = x ++ String c EmptyString)
  \/ exists b', b = b' ++ String c EmptyString.
Proof.
  revert x. induction a as [|d a IH]; intros x H.
  - right. exists x. exact H.
  - destruct x as [|d' x]; simpl in H.
    + injection H as -> H. apply append_eq_nil in H. destruct H as [-> ->].
      left. auto.
    + injection H as -> H. destruct (IH x H) as [[-> ->] | [b' ->]].
      * left. auto.
      * right. eauto.
Qed.

Lemma rstrip_by_keeps_last (p : ascii -> bool) (x : string) (c : ascii) :
  p c = false ->
  PyStr.rstrip_by p (x ++ String c EmptyString) = x ++ String c EmptyString.
Proof.
  intros Hc. induction x as [|d x IH]; simpl.
  - now rewrite Hc.
  - rewrite IH. destruct x; reflexivity.
Qed.

Lemma lstrip_by_keeps_last (p : ascii -> bool) (x : string) (c : ascii) :
  p c = false ->
  exists kept, PyStr.lstrip_by p (x ++ String c EmptyString) = kept ++ String c EmptyString.
Proof.
  intros Hc. induction x as [|d x [kept IH]]; simpl.
  - rewrite Hc. now exists EmptyString.
  - destruct (p d); [eauto|]. now exists (String d x).
Qed.

Lemma strip_keeps_last (x : string) (c : ascii) :
  PyStr.isspace c = false ->
  exists kept, PyStr.strip (x ++ String c EmptyString) = kept ++ String c EmptyString.
Proof.
  intros Hc. unfold PyStr.strip.
  destruct (lstrip_by_keeps_last PyStr.isspace x c Hc) as [kept ->].
  exists kept. now apply rstrip_by_keeps_last.
Qed.

Lemma marker_ends_with_bracket (x : string) : "[/INST]" <> x ++ DQ.
Proof.
  intros H.
  do 7 (destruct x as [|? x]; [discriminate | simpl in H; injection H as _ H]).
  destruct x; discriminate.
Qed.

Lemma finish_generate_keeps_quote (body : string) :
  exists kept, Main.finish_generate (body ++ DQ) = generated (kept ++ DQ).
Proof.
  assert (Hne : body ++ DQ <> EmptyString) by (destruct body; discriminate).
  destruct (marker_cases "[/INST]" (body ++ DQ)) as [Hno | [before [after Hlast]]].
  - rewrite (finish_generate_no_marker _ Hne Hno).
    destruct (strip_keeps_last body "034"%char eq_refl) as [kept Hk].
    exists kept. unfold DQ. now rewrite Hk.
  - rewrite (finish_generate_after_marker _ _ _ Hne Hlast).
    destruct Hlast as [Hs _].
    assert (Hs' : (before ++ "[/INST]") ++ after
                  = body ++ String "034"%char EmptyString)
      by (rewrite append_assoc; symmetry; exact Hs).
    destruct (append_last_inv _ _ _ _ Hs') as [[_ Hm] | [after' ->]].
    + exfalso.
      destruct (append_last_inv _ _ _ _ Hm) as [[Hm' _] | [m' Hm']];
        [discriminate | now apply (marker_ends_with_bracket m')].
    + destruct (strip_keeps_last after' "034"%char eq_refl) as [kept Hk].
      exists kept. unfold DQ. now rewrite Hk.
Qed.

(** X11.  A double quote that ends the aggregate is still the last
    character of the text [generate] of main.py returns: the removal of a
    trailing error-code suffix and of trailing quotes, computed after the
    empty check, is overwritten by the removal of the instruction and has
    no effect on the answer. *)
Theorem trailing_quote_reaches_the_client
    (rt : Runtime) (w : World) (image prompt : string) (response : Response)
    (body : string) :
  dispatched rt w image prompt response ->
  PyStr.join (Main.read_lines rt (aiter_lines response)) = body ++ DQ ->
  exists kept, Main.generate rt w image prompt = generated (kept ++ DQ).
Proof.
  intros Hd Hjoin.
  destruct (finish_generate_keeps_quote body) as [kept Hk].
  exists kept. rewrite (generate_dispatched rt w _ _ _ Hd), Hjoin, Hk. reflexivity.
Qed.

Lemma trailing_quote_reaches_the_client_witness :
  exists kept,
    Main.generate Reference.runtime (answering quoted_answer) "img" "hi"
    = generated (kept ++ DQ).
Proof.
  apply (trailing_quote_reaches_the_client Reference.runtime (answering quoted_answer)
           "img" "hi" quoted_answer "[INST] hi [/INST] No fracture.").
  - prove_dispatched.
  - reflexivity.
Defined.

(** ** The last chunk and the translator *)

Section LastText.

Context (rt : Runtime) (w : World).

Lemma find_text_last (before after : list string) (piece : string)
    (fields : list (string * json)) (t : json) :
  PyStr.strip piece <> EmptyString ->
  json_loads rt piece = Ok (JObj fields) ->
  dict_get "text" fields = Some t ->
  Forall (passed_over rt) after ->
  LlavaMedApi.find_text rt (rev (before ++ piece :: after)) = Ok t.
Proof.
  intros Hne Hload Htext Hafter.
  rewrite rev_app_distr. cbn [rev]. rewrite <- app_assoc.
  rewrite find_text_passed_over by (apply Forall_rev; assumption).
  cbn [app]. eapply find_text_found; eauto.
Qed.

Lemma read_chunks_bad_text (prompt : string) (earlier : list string)
    (last_chunk chunk_str : string) (t : json) :
  decode_utf8 rt last_chunk = Ok chunk_str ->
  LlavaMedApi.find_text rt (rev (PyStr.split NUL chunk_str)) = Ok t ->
  (forall s, t = JStr s -> s = EmptyString) ->
  LlavaMedApi.read_chunks rt w prompt (earlier ++ [last_chunk])
    = Raise (HTTPException 500 "No valid text found in worker response")
  \/ LlavaMedApi.read_chunks rt w prompt (earlier ++ [last_chunk])
     = Raise AttributeError.
Proof.
  intros Hdec Hfind Hbad. unfold LlavaMedApi.read_chunks.
  rewrite rev_app_distr. cbn [rev app]. rewrite Hdec. cbn [bind].
  rewrite Hfind. cbn [bind].
  destruct t as [| b | n | s | items | fields]; cbn [py_truthy py_replace negb bind].
  - now left.
  - destruct b; cbn [negb]; [now right | now left].
  - destruct (number_is_zero n); cbn [negb]; [now left | now right].
  - rewrite (Hbad s eq_refl). now left.
  - destruct items; cbn [negb]; [now left | now right].
  - destruct fields; cbn [negb]; [now left | now right].
Qed.

End LastText.

(** X12.  In [generate] of llava_med_api.py the search through the last
    chunk stops at the last object that has a text field, whatever that
    field holds: when it is not a non-empty string (it is empty, null, a
    number, a list) the request fails with status 500, and the objects
    before it are not looked at, even if they carry text. *)
Theorem last_text_must_be_a_nonempty_string
    (rt : Runtime) (w : World) (image prompt : string) (response : Response)
    (earlier : list string) (last_chunk chunk_str : string)
    (before after : list string) (piece : string)
    (fields : list (string * json)) (t : json) :
  llava_dispatched rt w image prompt response ->
  aiter_bytes response = (earlier ++ [last_chunk])%list ->
  decode_utf8 rt last_chunk = Ok chunk_str ->
  PyStr.split NUL chunk_str = (before ++ piece :: after)%list ->
  PyStr.strip piece <> EmptyString ->
  json_loads rt piece = Ok (JObj fields) ->
  dict_get "text" fields = Some t ->
  Forall (passed_over rt) after ->
  (forall s, t = JStr s -> s = EmptyString) ->
  http_status (LlavaMedApi.generate rt w image prompt) = Some 500
  /\ forall body, LlavaMedApi.generate rt w image prompt <> Ok body.
Proof.
  intros Hd Hchunks Hdec Hsplit Hne Hload Htext Hafter Hbad.
  rewrite (llava_generate_dispatched rt w _ _ _ Hd), Hchunks.
  assert (Hfind : LlavaMedApi.find_text rt (rev (PyStr.split NUL chunk_str)) = Ok t).
  { rewrite Hsplit. eapply find_text_last; eauto. }
  destruct (read_chunks_bad_text rt w prompt earlier _ _ _ Hdec Hfind Hbad)
    as [-> | ->]; cbn [try_except]; split; try reflexivity; discriminate.
Qed.

Lemma last_text_must_be_a_nonempty_string_witness :
  http_status (LlavaMedApi.generate Reference.runtime (answering empty_last_text)
                 "img" "hi") = Some 500.
Proof.
  refine (proj1 (last_text_must_be_a_nonempty_string Reference.runtime
                   (answering empty_last_text) "img" "hi" empty_last_text []
                   (hd EmptyString (aiter_bytes empty_last_text))
                   (hd EmptyString (aiter_bytes empty_last_text))
                   [Reference.fragment "0" "No fracture."] []
                   (Reference.fragment "0" EmptyString)
                   [("error_code", JNum (NInt 0)); ("text", JStr EmptyString)]
                   (JStr EmptyString) _ _ _ _ _ _ _ _ _)).
  - prove_dispatched.
  - reflexivity.
  - reflexivity.
  - reflexivity.
  - by_computation.
  - reflexivity.
  - reflexivity.
  - constructor.
  - intros s [= <-]. reflexivity.
Defined.

(** *** replace *)

Lemma replace_aux_skip (old new a rest : string) :
  PyStr.replace_aux old new (a ++ rest) (String.length a)
  = PyStr.replace_aux old new rest 0.
Proof. induction a as [|c a IH]; [reflexivity | exact IH]. Qed.

Lemma occurs_cons (marker : string) (c : ascii) (s : string) :
  occurs marker s -> occurs marker (String c s).
Proof. intros [a [b ->]]. now exists (String c a), b. Qed.

Lemma replace_aux_absent (old new s : string) :
  ~ occurs old s -> PyStr.replace_aux old new s 0 = s.
Proof.
  induction s as [|c s IH]; intros Hno; [reflexivity|].
  cbn [PyStr.replace_aux].
  destruct (PyStr.startswith old (String c s)) eqn:Hp.
  - exfalso. apply Hno. apply startswith_iff in Hp. destruct Hp as [rest Hrest].
    exists EmptyString, rest. exact Hrest.
  - rewrite IH; [reflexivity|]. intros Hocc. apply Hno. now apply occurs_cons.
Qed.

Lemma replace_aux_prefix (old new rest : string) :
  old <> EmptyString ->
  PyStr.replace_aux old new (old ++ rest) 0
  = new ++ PyStr.replace_aux old new rest 0.
Proof.
  intros Hne. destruct old as [|c old]; [congruence|].
  change (String c old ++ rest) with (String c (old ++ rest)).
  cbn [PyStr.replace_aux].
  assert (Hp : PyStr.startswith (String c old) (String c (old ++ rest)) = true).
  { apply startswith_iff. now exists rest. }
  rewrite Hp. f_equal.
  replace (String.length (String c old) - 1)%nat with (String.length old)
    by (simpl; lia).
  apply replace_aux_skip.
Qed.

Lemma template_not_empty (prompt : string) :
  PyStr.is_empty (LlavaMedApi.template prompt) = false.
Proof. reflexivity. Qed.

Lemma untranslated_echo (prompt answer : string) :
  ~ occurs (LlavaMedApi.template prompt) answer ->
  untranslated prompt (LlavaMedApi.template prompt ++ answer) = PyStr.strip answer.
Proof.
  intros Hno. unfold untranslated, PyStr.replace.
  rewrite template_not_empty, replace_aux_prefix by discriminate.
  now rewrite (replace_aux_absent _ _ _ Hno).
Qed.

Lemma untranslated_no_echo (prompt t : string) :
  ~ occurs (LlavaMedApi.template prompt) t ->
  untranslated prompt t = PyStr.strip t.
Proof.
  intros Hno. unfold untranslated, PyStr.replace.
  now rewrite template_not_empty, (replace_aux_absent _ _ _ Hno).
Qed.

(** X13.  [generate] of llava_med_api.py takes the instruction out by
    replacing the exact template built from the prompt: when the text of
    the worker is that template followed by an answer, the trimmed answer
    is what goes to the translator; when the template does not occur in
    the text, the whole text, trimmed, goes to the translator. *)
Theorem echoed_template_is_removed
    (rt : Runtime) (w : World) (image prompt : string) (response : Response)
    (t : string) :
  llava_dispatched rt w image prompt response ->
  produced_text rt response t ->
  (forall answer,
      t = LlavaMedApi.template prompt ++ answer ->
      ~ occurs (LlavaMedApi.template prompt) answer ->
      LlavaMedApi.generate rt w image prompt
      = try_except
          (translated_text <- LlavaMedApi.translate_text w (PyStr.strip answer) ;;
           Ok (JObj [("generated_text", translated_text)]))
          (LlavaMedApi.endpoint_except rt))
  /\ (~ occurs (LlavaMedApi.template prompt) t ->
      LlavaMedApi.generate rt w image prompt
      = try_except
          (translated_text <- LlavaMedApi.translate_text w (PyStr.strip t) ;;
           Ok (JObj [("generated_text", translated_text)]))
          (LlavaMedApi.endpoint_except rt)).
Proof.
  intros Hd Hp.
  rewrite (llava_generate_dispatched rt w _ _ _ Hd).
  rewrite (read_chunks_produced rt w prompt _ _ Hp).
  split.
  - intros answer -> Hno. now rewrite (untranslated_echo _ _ Hno).
  - intros Hno. now rewrite (untranslated_no_echo _ _ Hno).
Qed.

Lemma echoed_template_is_removed_witness :
  LlavaMedApi.generate Reference.runtime translator_up "img" "hi"
  = try_except
      (translated_text <- LlavaMedApi.translate_text translator_up "No fracture." ;;
       Ok (JObj [("generated_text", translated_text)]))
      (LlavaMedApi.endpoint_except Reference.runtime).
Proof.
  refine (proj1 (echoed_template_is_removed Reference.runtime translator_up
                   "img" "hi" one_chunk
                   (LlavaMedApi.template "hi" ++ " No fracture.") _ _)
                " No fracture." eq_refl _).
  - prove_dispatched.
  - exists [], (hd EmptyString (aiter_bytes one_chunk)),
      (hd EmptyString (aiter_bytes one_chunk)).
    repeat split; by_computation.
  - apply not_occurs_of_rfind. reflexivity.
Defined.

(** X14.  When the worker produced usable text and the translator
    answers, [generate] of llava_med_api.py returns the first translation
    of the reply and ignores the others; when the reply holds no
    translation the request still succeeds, with [None] (JSON null) as its
    generated text. *)
Theorem first_translation_is_returned
    (rt : Runtime) (w : World) (image prompt : string) (response : Response)
    (t : string) (translations : list string) :
  llava_dispatched rt w image prompt response ->
  produced_text rt response t ->
  translate_client w (translation_request (untranslated prompt t)) = Ok translations ->
  LlavaMedApi.generate rt w image prompt = translated translations.
Proof.
  intros Hd Hp Htr.
  rewrite (llava_generate_dispatched rt w _ _ _ Hd).
  rewrite (read_chunks_produced rt w prompt _ _ Hp).
  unfold LlavaMedApi.translate_text.
  change (translate_client w _) with
    (translate_client w (translation_request (untranslated prompt t))).
  rewrite Htr. destruct translations; reflexivity.
Qed.

Lemma first_translation_is_returned_witness :
  LlavaMedApi.generate Reference.runtime (answering one_chunk) "img" "hi"
  = Ok (JObj [("generated_text", JNull)]).
Proof.
  refine (first_translation_is_returned Reference.runtime (answering one_chunk)
            "img" "hi" one_chunk
            (LlavaMedApi.template "hi" ++ " No fracture.") [] _ _ _).
  - prove_dispatched.
  - exists [], (hd EmptyString (aiter_bytes one_chunk)),
      (hd EmptyString (aiter_bytes one_chunk)).
    repeat split; by_computation.
  - reflexivity.
Defined.

(** ** The status of a fragment *)

Lemma zero_decimal_is_zero (exp10 : Z) : dec_is_zero 0 exp10 = true.
Proof.
  unfold dec_is_zero. destruct (0 <=? exp10) eqn:H; [reflexivity|].
  apply Z.leb_le. simpl. apply Z.leb_gt in H. apply Z.pow_nonneg. lia.
Qed.

(** X15.  A structured fragment with a text counts as a success exactly
    when its status compares equal to 0 as Python compares: the integer
    0, a float that is zero and the boolean false are successes; every
    other value (a non-zero number, true, a string such as "0", null) is a
    failure, whose text the aggregation loop drops and the relay sends as
    an error frame. *)
Theorem status_is_compared_with_zero
    (rt : Runtime) (line : string) (fields : list (string * json)) (status : json)
    (t : string) (full_response : list string) :
  line <> EmptyString ->
  json_loads rt line = Ok (JObj fields) ->
  dict_get "error_code" fields = Some status ->
  dict_get "text" fields = Some (JStr t) ->
  Main.handle_line rt full_response line
  = (if py_eq_zero status then full_response ++ [PyStr.strip t] else full_response)%list
  /\ LlavaMedApi.sse_line rt line
     = [if py_eq_zero status then "data: " ++ t ++ LF ++ LF
        else "data: Error: " ++ t ++ LF ++ LF]
  /\ (py_eq_zero status = true <->
      status = JBool false
      \/ status = JNum (NInt 0)
      \/ exists mant exp10, status = JNum (NDec mant exp10)
                            /\ dec_is_zero mant exp10 = true)
  /\ (forall exp10, dec_is_zero 0 exp10 = true).
Proof.
  intros Hne Hload Hcode Htext.
  apply is_empty_false in Hne.
  unfold Main.handle_line, LlavaMedApi.sse_line.
  rewrite Hne, Hload. cbn [bind py_in py_getitem py_get].
  rewrite Hcode. cbn [bind]. rewrite Htext.
  split; [|split; [|split]].
  - destruct (py_eq_zero status); reflexivity.
  - destruct (py_eq_zero status); reflexivity.
  - split.
    + destruct status as [| [|] | [z | m e | | neg] | s | items | fs]; simpl;
        try discriminate; intros H.
      * now left.
      * apply Z.eqb_eq in H. subst z. right. now left.
      * right. right. eauto.
    + intros [-> | [-> | [m [e [-> H]]]]]; simpl; auto.
  - apply zero_decimal_is_zero.
Qed.

Lemma status_is_compared_with_zero_witness :
  Main.handle_line Reference.runtime [] status_false = ["ok"]
  /\ Main.handle_line Reference.runtime [] status_text = [].
Proof.
  split.
  - refine (proj1 (status_is_compared_with_zero Reference.runtime status_false
                     [("error_code", JBool false); ("text", JStr "ok")] (JBool false)
                     "ok" [] _ _ _ _)); by_computation.
  - refine (proj1 (status_is_compared_with_zero Reference.runtime status_text
                     [("error_code", JStr "0"); ("text", JStr "ok")] (JStr "0")
                     "ok" [] _ _ _ _)); by_computation.
Defined.

(** ** Replies of the registry that cannot be read *)

(** X16.  When the registry answers with a 2xx status and a body that is
    not JSON, or that is JSON but not an object, the locator does not fail
    with its registry-unavailable error: the exception of the JSON reader,
    or a [TypeError], leaves [get_worker_address] as it is, and the
    endpoint answers the client with status 500. *)
Theorem unreadable_registry_reply
    (rt : Runtime) (w : World) (image prompt : string) (response : Response) :
  lookup w Main.model_name = Ok response ->
  200 <= status_code response <= 299 ->
  (exists processed, read_image w image = Ok processed) ->
  (forall e, response_json rt response = Raise e -> is_HTTPError e = false ->
     Main.get_worker_address rt w Main.model_name = Raise e
     /\ http_status (Main.generate rt w image prompt) = Some 500)
  /\ (forall data, response_json rt response = Ok data ->
       (forall fields, data <> JObj fields) ->
       Main.get_worker_address rt w Main.model_name = Raise TypeError
       /\ http_status (Main.generate rt w image prompt) = Some 500).
Proof.
  intros Hl Hs [[image_hash base64_image] Himg].
  apply raise_for_status_ok in Hs.
  assert (Hgen : forall e, is_RequestError e = false ->
             Main.get_worker_address rt w Main.model_name = Raise e ->
             http_status (Main.generate rt w image prompt) = Some 500).
  { intros e He Haddr. unfold Main.generate, Main.process_image.
    rewrite Himg. cbn [bind]. rewrite Haddr. cbn [bind try_except].
    rewrite endpoint_except_outcome, He. reflexivity. }
  unfold lookup in Hl.
  split.
  - intros e Hjson He.
    assert (Haddr : Main.get_worker_address rt w Main.model_name = Raise e).
    { unfold Main.get_worker_address. rewrite Hl. cbn [bind]. rewrite Hs.
      cbn [bind]. rewrite Hjson. cbn [bind try_except]. now rewrite He. }
    split; [assumption|]. apply (Hgen e); [|assumption].
    destruct e; try discriminate; reflexivity.
  - intros data Hjson Hobj.
    assert (Haddr : Main.get_worker_address rt w Main.model_name = Raise TypeError).
    { unfold Main.get_worker_address. rewrite Hl. cbn [bind]. rewrite Hs.
      cbn [bind]. rewrite Hjson. cbn [bind].
      destruct data; try reflexivity. exfalso. now apply (Hobj fields). }
    split; [assumption|]. now apply (Hgen TypeError).
Qed.

Lemma unreadable_registry_reply_witness :
  Main.get_worker_address Reference.runtime registry_html Main.model_name
  = Raise JSONDecodeError.
Proof.
  refine (proj1 (proj1 (unreadable_registry_reply Reference.runtime registry_html
                          "img" "hi"
                          (Reference.response_of_text 200 "<html>ok</html>") _ _ _)
                   JSONDecodeError _ _)).
  - reflexivity.
  - simpl. lia.
  - eexists. reflexivity.
  - reflexivity.
  - reflexivity.
Defined.

(** ** Empty answers *)

Lemma chat_ok_inv (rt : Runtime) (w : World) (messages : list json)
    (images : list string) (body : json) :
  Main.chat rt w messages images = Ok body ->
  exists response,
    chat_dispatched rt w messages images response
    /\ PyStr.join (Main.read_lines rt (aiter_lines response)) <> EmptyString
    /\ body = JObj [("generated_text",
                     JStr (PyStr.join (Main.read_lines rt (aiter_lines response))))].
Proof.
  unfold Main.chat. intros H. apply try_except_ok in H.
  apply bind_ok in H. destruct H as [worker_address [Haddr H]].
  apply bind_ok in H. destruct H as [processed_images [Himgs H]].
  apply bind_ok in H. destruct H as [response [Hpost H]].
  apply bind_ok in H. destruct H as [[] [Hstatus H]].
  exists response. split.
  - exists worker_address, processed_images. auto.
  - destruct (PyStr.is_empty _) eqn:He; [discriminate|].
    apply is_empty_false in He. split; [assumption | congruence].
Qed.

(** X17.  [chat] never answers with an empty text: whenever it succeeds,
    the worker answered the post of the chat payload, at the address the
    registry gave, with a reply of status 2xx, and the body holds under
    "generated_text" the aggregate of the lines of that reply as the line
    loop joined them, which is not empty and from which nothing is taken
    away. *)
Theorem chat_text_is_never_empty
    (rt : Runtime) (w : World) (messages : list json) (images : list string)
    (body : json) :
  Main.chat rt w messages images = Ok body ->
  exists response,
    chat_dispatched rt w messages images response
    /\ body = JObj [("generated_text",
                     JStr (PyStr.join (Main.read_lines rt (aiter_lines response))))]
    /\ PyStr.join (Main.read_lines rt (aiter_lines response)) <> EmptyString.
Proof.
  intros H. destruct (chat_ok_inv rt w _ _ _ H) as [response [Hd [Hne Hbody]]].
  exists response. auto.
Qed.

Lemma chat_text_is_never_empty_witness :
  exists response,
    chat_dispatched Reference.runtime (answering two_words) [] [] response
    /\ JObj [("generated_text", JStr "Helloworld")]
       = JObj [("generated_text",
                JStr (PyStr.join (Main.read_lines Reference.runtime
                                    (aiter_lines response))))]
    /\ PyStr.join (Main.read_lines Reference.runtime (aiter_lines response))
       <> EmptyString.
Proof.
  apply (chat_text_is_never_empty Reference.runtime (answering two_words) [] []).
  reflexivity.
Defined.

Lemma append_suffix (x y x' y' : string) :
  x ++ y = x' ++ y' ->
  (String.length x <= String.length x')%nat ->
  exists z, y = z ++ y'.
Proof.
  revert x'. induction x as [|c x IH]; intros x' H Hlen.
  - exists x'. exact H.
  - destruct x' as [|c' x']; [simpl in Hlen; lia|].
    simpl in H. injection H as _ H. apply (IH x' H). simpl in Hlen. lia.
Qed.

Lemma all_chars_app (p : ascii -> bool) (a b : string) :
  all_chars p (a ++ b) = true -> all_chars p b = true.
Proof.
  induction a as [|c a IH]; simpl; [auto|].
  intros H. apply andb_true_iff in H. tauto.
Qed.

Lemma strip_blank (s : string) :
  all_chars PyStr.isspace s = true -> PyStr.strip s = EmptyString.
Proof.
  intros H. unfold PyStr.strip.
  assert (Hl : PyStr.lstrip_by PyStr.isspace s = EmptyString).
  { induction s as [|c s IH]; [reflexivity|].
    simpl in H. apply andb_true_iff in H. destruct H as [Hc Hs].
    simpl. rewrite Hc. auto. }
  now rewrite Hl.
Qed.

Lemma finish_generate_echo_only (before blank : string) :
  all_chars PyStr.isspace blank = true ->
  Main.finish_generate (before ++ "[/INST]" ++ blank) = generated EmptyString.
Proof.
  intros Hblank.
  set (s := before ++ "[/INST]" ++ blank).
  assert (Hne : s <> EmptyString).
  { unfold s. intros H. apply append_eq_nil in H. destruct H as [_ H]. discriminate. }
  destruct (marker_cases "[/INST]" s) as [Hno | [b [a Hlast]]].
  - exfalso. apply Hno. now exists before, blank.
  - rewrite (finish_generate_after_marker _ _ _ Hne Hlast).
    destruct Hlast as [Hs Hmax].
    specialize (Hmax before blank eq_refl).
    assert (Heq : (before ++ "[/INST]") ++ blank = (b ++ "[/INST]") ++ a).
    { rewrite !append_assoc. exact Hs. }
    destruct (append_suffix _ _ _ _ Heq) as [z Hz].
    { rewrite !length_append. lia. }
    rewrite Hz in Hblank. apply all_chars_app in Hblank.
    now rewrite (strip_blank _ Hblank).
Qed.

(** X18.  [generate] of main.py can succeed with an empty text: the empty
    check is made on the aggregate, before the instruction is taken out, so
    an aggregate that ends with the marker "[/INST]", followed at most by
    white space, is answered with the empty string and not with the
    empty-response error. *)
Theorem echo_only_is_an_empty_success
    (rt : Runtime) (w : World) (image prompt : string) (response : Response)
    (before blank : string) :
  dispatched rt w image prompt response ->
  PyStr.join (Main.read_lines rt (aiter_lines response))
  = before ++ "[/INST]" ++ blank ->
  all_chars PyStr.isspace blank = true ->
  Main.generate rt w image prompt = generated EmptyString.
Proof.
  intros Hd Hjoin Hblank.
  rewrite (generate_dispatched rt w _ _ _ Hd), Hjoin.
  now rewrite (finish_generate_echo_only before blank Hblank).
Qed.

Lemma echo_only_is_an_empty_success_witness :
  Main.generate Reference.runtime (answering echo_only) "img" "hi"
  = generated EmptyString.
Proof.
  apply (echo_only_is_an_empty_success Reference.runtime (answering echo_only)
           "img" "hi" echo_only "[INST] hi " EmptyString).
  - prove_dispatched.
  - reflexivity.
  - reflexivity.
Defined.

(** X19.  In [generate] of llava_med_api.py a piece of the last chunk that
    parses to a number, a boolean or null is not skipped: the membership
    test on it raises, the search ends, and the request fails with status
    500 even when a piece before it holds the answer. *)
Theorem scalar_piece_aborts
    (rt : Runtime) (w : World) (image prompt : string) (response : Response)
    (earlier : list string) (last_chunk chunk_str : string)
    (before after : list string) (piece : string) (data : json) :
  llava_dispatched rt w image prompt response ->
  aiter_bytes response = (earlier ++ [last_chunk])%list ->
  decode_utf8 rt last_chunk = Ok chunk_str ->
  PyStr.split NUL chunk_str = (before ++ piece :: after)%list ->
  PyStr.strip piece <> EmptyString ->
  json_loads rt piece = Ok data ->
  (data = JNull \/ (exists b, data = JBool b) \/ (exists n, data = JNum n)) ->
  Forall (passed_over rt) after ->
  LlavaMedApi.generate rt w image prompt = LlavaMedApi.endpoint_except rt TypeError
  /\ http_status (LlavaMedApi.generate rt w image prompt) = Some 500.
Proof.
  intros Hd Hchunks Hdec Hsplit Hne Hload Hdata Hafter.
  assert (Hin : py_in "text" data = Raise TypeError).
  { destruct Hdata as [-> | [[b ->] | [n ->]]]; reflexivity. }
  assert (Hfind : LlavaMedApi.find_text rt (rev (PyStr.split NUL chunk_str))
                  = Raise TypeError).
  { rewrite Hsplit, rev_app_distr. cbn [rev]. rewrite <- app_assoc.
    rewrite find_text_passed_over by (apply Forall_rev; assumption).
    cbn [app]. now apply (find_text_not_iterable rt piece _ data). }
  assert (Hg : LlavaMedApi.generate rt w image prompt
               = LlavaMedApi.endpoint_except rt TypeError).
  { rewrite (llava_generate_dispatched rt w _ _ _ Hd), Hchunks.
    unfold LlavaMedApi.read_chunks. rewrite rev_app_distr. cbn [rev app].
    rewrite Hdec. cbn [bind]. rewrite Hfind. reflexivity. }
  rewrite Hg. split; reflexivity.
Qed.

Lemma scalar_piece_aborts_witness :
  http_status (LlavaMedApi.generate Reference.runtime (answering number_after_answer)
                 "img" "hi") = Some 500.
Proof.
  refine (proj2 (scalar_piece_aborts Reference.runtime (answering number_after_answer)
                   "img" "hi" number_after_answer []
                   (hd EmptyString (aiter_bytes number_after_answer))
                   (hd EmptyString (aiter_bytes number_after_answer))
                   [Reference.fragment "0" "No fracture."] [] "5" (JNum (NInt 5))
                   _ _ _ _ _ _ _ _)).
  - prove_dispatched.
  - reflexivity.
  - reflexivity.
  - reflexivity.
  - by_computation.
  - reflexivity.
  - right. right. eexists. reflexivity.
  - constructor.
Defined.

(** ** Streams without usable text: the answers *)

Lemma blank_has_no_template (prompt s : string) :
  all_chars PyStr.isspace s = true -> ~ occurs (LlavaMedApi.template prompt) s.
Proof.
  intros Hblank [a [b Hs]]. rewrite Hs in Hblank.
  apply all_chars_app in Hblank. discriminate.
Qed.

Lemma untranslated_blank (prompt s : string) :
  all_chars PyStr.isspace s = true -> untranslated prompt s = EmptyString.
Proof.
  intros Hblank.
  rewrite (untranslated_no_echo prompt s (blank_has_no_template prompt s Hblank)).
  now apply strip_blank.
Qed.

Lemma falsy_text (t : json) :
  py_truthy t = false -> forall s, t = JStr s -> s = EmptyString.
Proof.
  intros H s ->. simpl in H. apply negb_false_iff in H. now apply is_empty_true.
Qed.

Lemma read_chunks_nothing_found (rt : Runtime) (w : World) (prompt : string)
    (earlier : list string) (last_chunk chunk_str : string) :
  decode_utf8 rt last_chunk = Ok chunk_str ->
  search_finds_nothing rt (PyStr.split NUL chunk_str) ->
  http_status
    (try_except (LlavaMedApi.read_chunks rt w prompt (earlier ++ [last_chunk]))
       (LlavaMedApi.endpoint_except rt))
  = Some 500.
Proof.
  intros Hdec [Hall | [before [piece [after [fields [t H]]]]]].
  - unfold LlavaMedApi.read_chunks. rewrite rev_app_distr. cbn [rev app].
    rewrite Hdec. cbn [bind].
    rewrite <- (app_nil_r (rev (PyStr.split NUL chunk_str))).
    rewrite find_text_passed_over by (apply Forall_rev; assumption).
    reflexivity.
  - destruct H as [Hsplit [Hne [Hload [Htext [Hfalse Hafter]]]]].
    assert (Hfind : LlavaMedApi.find_text rt (rev (PyStr.split NUL chunk_str)) = Ok t).
    { rewrite Hsplit. eapply find_text_last; eauto. }
    destruct (read_chunks_bad_text rt w prompt earlier _ _ _ Hdec Hfind
                (falsy_text t Hfalse)) as [-> | ->]; reflexivity.
Qed.

(** C2, as stated, fails: a last chunk whose only object has a text of
    three spaces holds no usable text, yet [generate] of llava_med_api.py
    passes its check, sends the empty text to the translator and answers
    with a body whose generated text is empty. *)
Lemma empty_success_claim_fails :
  ~ empty_success_claim Reference.runtime blank_text_world.
Proof.
  intros Hclaim.
  destruct (Hclaim "img" "hi" [] [] blank_text_chunk) as [_ Hllava].
  assert (Hd : llava_dispatched Reference.runtime blank_text_world "img" "hi"
                 blank_text_chunk) by prove_dispatched.
  assert (Hnone : forall chunk chunk_str piece,
             In chunk (aiter_bytes blank_text_chunk) ->
             decode_utf8 Reference.runtime chunk = Ok chunk_str ->
             In piece (PyStr.split NUL chunk_str) ->
             ~ usable_piece Reference.runtime piece).
  { intros chunk chunk_str piece [<- | []] Hdec Hpiece [fields [t [Hload [Htext Hne]]]].
    vm_compute in Hdec. injection Hdec as <-.
    destruct Hpiece as [<- | []].
    vm_compute in Hload. injection Hload as <-.
    vm_compute in Htext. injection Htext as <-.
    apply Hne. reflexivity. }
  specialize (Hllava Hnone Hd). vm_compute in Hllava. discriminate.
Qed.

(** C2 (amended).  A worker stream without a usable text fragment (the
    empty stream among them) is never answered with a success by the line
    loop of main.py: [generate] and [chat] raise the empty-response error,
    which reaches the client with status 500, and return no body.  In
    [generate] of llava_med_api.py the request fails with status 500 when
    the worker sent no chunk, and when the search through the last chunk
    ends without a text or on an empty one; a text of white space only
    passes that check, and the request goes on to the translator with the
    empty text. *)
Theorem no_usable_text_is_an_error
    (rt : Runtime) (w : World) (image prompt : string) (messages : list json)
    (images : list string) (response : Response) :
  (forall line, In line (aiter_lines response) -> ~ usable rt line) ->
  (dispatched rt w image prompt response ->
     Main.generate rt w image prompt = empty_worker_response rt
     /\ http_status (Main.generate rt w image prompt) = Some 500
     /\ forall body, Main.generate rt w image prompt <> Ok body)
  /\ (chat_dispatched rt w messages images response ->
     Main.chat rt w messages images = empty_worker_response rt
     /\ http_status (Main.chat rt w messages images) = Some 500)
  /\ (llava_dispatched rt w image prompt response ->
      aiter_bytes response = []
      \/ (exists earlier last_chunk chunk_str,
            aiter_bytes response = (earlier ++ [last_chunk])%list
            /\ decode_utf8 rt last_chunk = Ok chunk_str
            /\ search_finds_nothing rt (PyStr.split NUL chunk_str)) ->
      http_status (LlavaMedApi.generate rt w image prompt) = Some 500
      /\ forall body, LlavaMedApi.generate rt w image prompt <> Ok body)
  /\ (forall s,
        llava_dispatched rt w image prompt response ->
        produced_text rt response s ->
        all_chars PyStr.isspace s = true ->
        LlavaMedApi.generate rt w image prompt
        = try_except
            (translated_text <- LlavaMedApi.translate_text w EmptyString ;;
             Ok (JObj [("generated_text", translated_text)]))
            (LlavaMedApi.endpoint_except rt)).
Proof.
  intros Hnone.
  pose proof (read_lines_unusable rt _ Hnone) as Hempty.
  split; [|split; [|split]].
  - intros Hd.
    assert (Hg : Main.generate rt w image prompt = empty_worker_response rt).
    { rewrite (generate_dispatched rt w _ _ _ Hd), Hempty. reflexivity. }
    rewrite Hg. repeat split; try reflexivity. discriminate.
  - intros Hd.
    rewrite (chat_dispatched_eq rt w _ _ _ Hd), Hempty. simpl.
    split; reflexivity.
  - intros Hd Hchunks.
    rewrite (llava_generate_dispatched rt w _ _ _ Hd).
    assert (Hs : http_status
                   (try_except
                      (LlavaMedApi.read_chunks rt w prompt (aiter_bytes response))
                      (LlavaMedApi.endpoint_except rt)) = Some 500).
    { destruct Hchunks as [-> | [earlier [last_chunk [chunk_str [-> [Hdec Hall]]]]]];
        [reflexivity
        | exact (read_chunks_nothing_found rt w prompt earlier last_chunk chunk_str
                   Hdec Hall)]. }
    split; [assumption|]. intros body Hbody. rewrite Hbody in Hs. discriminate.
  - intros s Hd Hp Hblank.
    rewrite (llava_generate_dispatched rt w _ _ _ Hd).
    rewrite (read_chunks_produced rt w prompt _ _ Hp).
    now rewrite (untranslated_blank prompt s Hblank).
Qed.

Lemma no_usable_text_is_an_error_witness :
  Main.generate Reference.runtime (answering nothing_usable) "img" "hi"
    = Raise (HTTPException 500
               "An unexpected error occurred: 500: Worker returned empty response")
  /\ Main.chat Reference.runtime (answering nothing_usable) [] []
    = Raise (HTTPException 500
               "An unexpected error occurred: 500: Worker returned empty response")
  /\ http_status (LlavaMedApi.generate Reference.runtime (answering nothing_usable)
                    "img" "hi") = Some 500.
Proof.
  assert (Hnone : forall line, In line (aiter_lines nothing_usable) ->
                               ~ usable Reference.runtime line).
  { intros line [<- | [<- | [<- | []]]];
      apply not_usable_of_handle_line; by_computation; auto. }
  destruct (no_usable_text_is_an_error Reference.runtime (answering nothing_usable)
              "img" "hi" [] [] nothing_usable Hnone) as [Hgen [Hchat [Hllava _]]].
  split; [|split].
  - apply Hgen. prove_dispatched.
  - apply Hchat. do 2 eexists; repeat split; by_computation.
  - apply Hllava; [prove_dispatched|].
    right. exists [], (String NUL "{}"), (String NUL "{}").
    split; [reflexivity|]. split; [reflexivity|]. left.
    change (Forall (passed_over Reference.runtime) [EmptyString; "{}"]).
    constructor; [left; reflexivity|].
    constructor; [|constructor].
    right. right. exists (JObj []). split; reflexivity.
Defined.
